(** * kalman_filter_localization: the EKF localization component

    A shallow embedding of [src/ekf_localization_component.cpp], the ROS 2
    node that feeds inertial, odometry and GNSS samples to an extended
    Kalman filter and periodically broadcasts the estimated pose.

    Layout of the development:
    - [Scalar]: the arithmetic of C++ [double], as an interface with an
      IEEE binary64 instance (Rocq's primitive floats) and a real-number
      instance;
    - messages of [geometry_msgs], [sensor_msgs] and [nav_msgs];
    - the pieces of Eigen and tf2 the node calls;
    - [EKFEstimator]: the interface of the estimator class of [ekf.hpp];
    - the node: constructor, callbacks, timer;
    - [SpecEkf]: an estimator written after the specification;
    - the properties. *)

From Stdlib Require Import ZArith String List Reals Lra Lia Floats.
From Stdlib Require Uint63.
From stdpp Require Import base list.

Local Open Scope string_scope.

(** ** Arithmetic of [double] *)

(** The node only copies doubles around, compares them and hands them to
    Eigen; what it needs of them is collected here. *)
Class Scalar (D : Type) : Type := {
  dzero : D;
  dunit : D;
  dadd : D -> D -> D;
  dsub : D -> D -> D;
  dmul : D -> D -> D;
  ddiv : D -> D -> D;
  dopp : D -> D;
  dsqrt : D -> D;
  (** [operator==] and [operator<] *)
  deqb : D -> D -> bool;
  dltb : D -> D -> bool;
  (** [std::isfinite] *)
  disfinite : D -> bool;
  (** conversion of an integer to [double] *)
  dofZ : Z -> D
}.

Declare Scope double_scope.
Delimit Scope double_scope with D.
Infix "+" := dadd : double_scope.
Infix "-" := dsub : double_scope.
Infix "*" := dmul : double_scope.
Infix "/" := ddiv : double_scope.
Notation "- x" := (dopp x) : double_scope.
Infix "==" := deqb (at level 70, no associativity) : double_scope.

(** A decimal literal [n / d], rounded as the division rounds. *)
Definition dlit {D} `{Scalar D} (n d : Z) : D := (dofZ n / dofZ d)%D.

(** IEEE 754 binary64. *)
Definition float_of_Z (z : Z) : float :=
  if (z <? 0)%Z then PrimFloat.opp (PrimFloat.of_uint63 (Uint63.of_Z (- z)))
  else PrimFloat.of_uint63 (Uint63.of_Z z).

#[export] Instance binary64 : Scalar float := {
  dzero := 0%float;
  dunit := 1%float;
  dadd := PrimFloat.add;
  dsub := PrimFloat.sub;
  dmul := PrimFloat.mul;
  ddiv := PrimFloat.div;
  dopp := PrimFloat.opp;
  dsqrt := PrimFloat.sqrt;
  deqb := PrimFloat.eqb;
  dltb := PrimFloat.ltb;
  disfinite := is_finite;
  dofZ := float_of_Z
}.

(** The real numbers the doubles approximate. *)
#[export] Instance exact_reals : Scalar R := {
  dzero := 0%R;
  dunit := 1%R;
  dadd := Rplus;
  dsub := Rminus;
  dmul := Rmult;
  ddiv := Rdiv;
  dopp := Ropp;
  dsqrt := R_sqrt.sqrt;
  deqb := fun a b => if Req_dec_T a b then true else false;
  dltb := fun a b => if Rlt_dec a b then true else false;
  disfinite := fun _ => true;
  dofZ := IZR
}.

(** ** Messages *)

(** [builtin_interfaces/Time]: [int32 sec], [uint32 nanosec]. *)
Module Time.
Record t : Type := mk { sec : Z; nanosec : Z }.
Definition zero : t := mk 0 0.
End Time.

(** [std_msgs/Header] *)
Module Header.
Record t : Type := mk { stamp : Time.t; frame_id : string }.
Definition empty : t := mk Time.zero "".
End Header.

(** [geometry_msgs/Point] *)
Module Point.
Record t (D : Type) : Type := mk { x : D; y : D; z : D }.
Arguments mk {D}.
Arguments x {D}.
Arguments y {D}.
Arguments z {D}.
End Point.

(** [geometry_msgs/Vector3] *)
Module Vector3.
Record t (D : Type) : Type := mk { x : D; y : D; z : D }.
Arguments mk {D}.
Arguments x {D}.
Arguments y {D}.
Arguments z {D}.
End Vector3.

(** [geometry_msgs/Quaternion] *)
Module Quaternion.
Record t (D : Type) : Type := mk { x : D; y : D; z : D; w : D }.
Arguments mk {D}.
Arguments x {D}.
Arguments y {D}.
Arguments z {D}.
Arguments w {D}.
End Quaternion.

(** [geometry_msgs/Pose] *)
Module Pose.
Record t (D : Type) : Type :=
  mk { position : Point.t D; orientation : Quaternion.t D }.
Arguments mk {D}.
Arguments position {D}.
Arguments orientation {D}.
End Pose.

(** [geometry_msgs/PoseStamped] *)
Module PoseStamped.
Record t (D : Type) : Type := mk { header : Header.t; pose : Pose.t D }.
Arguments mk {D}.
Arguments header {D}.
Arguments pose {D}.
End PoseStamped.

(** [geometry_msgs/Transform] and [geometry_msgs/TransformStamped] *)
Module Transform.
Record t (D : Type) : Type :=
  mk { translation : Vector3.t D; rotation : Quaternion.t D }.
Arguments mk {D}.
Arguments translation {D}.
Arguments rotation {D}.
End Transform.

Module TransformStamped.
Record t (D : Type) : Type :=
  mk { header : Header.t; child_frame_id : string; transform : Transform.t D }.
Arguments mk {D}.
Arguments header {D}.
Arguments child_frame_id {D}.
Arguments transform {D}.
End TransformStamped.

(** [sensor_msgs/Imu]; the covariance arrays are never read by the node. *)
Module Imu.
Record t (D : Type) : Type :=
  mk { header : Header.t;
       orientation : Quaternion.t D;
       angular_velocity : Vector3.t D;
       linear_acceleration : Vector3.t D }.
Arguments mk {D}.
Arguments header {D}.
Arguments orientation {D}.
Arguments angular_velocity {D}.
Arguments linear_acceleration {D}.
End Imu.

(** [nav_msgs/Odometry]; [pose] is the source's [pose.pose], the twist is
    never read by the node. *)
Module Odometry.
Record t (D : Type) : Type :=
  mk { header : Header.t; child_frame_id : string; pose : Pose.t D }.
Arguments mk {D}.
Arguments header {D}.
Arguments child_frame_id {D}.
Arguments pose {D}.
End Odometry.

(** Messages are zero-initialised, except that a quaternion starts as the
    identity rotation. *)
Section Defaults.
Context {D : Type} `{Scalar D}.

Definition Point_default : Point.t D := Point.mk dzero dzero dzero.
Definition Quaternion_default : Quaternion.t D :=
    Quaternion.mk dzero dzero dzero dunit.
Definition Pose_default : Pose.t D := Pose.mk Point_default Quaternion_default.
Definition PoseStamped_default : PoseStamped.t D :=
    PoseStamped.mk Header.empty Pose_default.
End Defaults.

(** ** Eigen *)

Module Vector3d.
Record t (D : Type) : Type := mk { x : D; y : D; z : D }.
Arguments mk {D}.
Arguments x {D}.
Arguments y {D}.
Arguments z {D}.
End Vector3d.

Module Vector4d.
Record t (D : Type) : Type := mk { c0 : D; c1 : D; c2 : D; c3 : D }.
Arguments mk {D}.
Arguments c0 {D}.
Arguments c1 {D}.
Arguments c2 {D}.
Arguments c3 {D}.
End Vector4d.

(** A 4x4 matrix, row by row. *)
Module Matrix4d.
Record t (D : Type) : Type :=
  mk { r0 : Vector4d.t D; r1 : Vector4d.t D; r2 : Vector4d.t D; r3 : Vector4d.t D }.
Arguments mk {D}.
Arguments r0 {D}.
Arguments r1 {D}.
Arguments r2 {D}.
Arguments r3 {D}.
End Matrix4d.

(** [Eigen::VectorXd]: a vector whose size is fixed when it is built. *)
Definition VectorXd (D : Type) : Type := list D.

Section Eigen.
Context {D : Type} `{Scalar D}.
Local Open Scope nat_scope.
Local Open Scope double_scope.

(** [VectorXd::Zero(n)] *)
Definition VectorXd_Zero (n : nat) : VectorXd D := replicate n dzero.

(** [x(i)] read; Eigen leaves an index past the end undefined, the model
    reads zero there. *)
Definition VectorXd_at (x : VectorXd D) (i : nat) : D := default dzero (x !! i).

(** [x(i) = v]; an index past the end, undefined in Eigen, writes nothing. *)
Definition VectorXd_set (x : VectorXd D) (i : nat) (v : D) : VectorXd D :=
  <[i := v]> x.

Definition Vector4d_at (v : Vector4d.t D) (j : nat) : D :=
  match j with
  | 0 => Vector4d.c0 v
  | 1 => Vector4d.c1 v
  | 2 => Vector4d.c2 v
  | _ => Vector4d.c3 v
  end.

(** [m(i, j)] *)
Definition Matrix4d_at (m : Matrix4d.t D) (i j : nat) : D :=
  Vector4d_at
    (match i with
     | 0 => Matrix4d.r0 m
     | 1 => Matrix4d.r1 m
     | 2 => Matrix4d.r2 m
     | _ => Matrix4d.r3 m
     end) j.

(** The matrix whose coefficient [(i, j)] is [f i j]. *)
Definition Matrix4d_of (f : nat -> nat -> D) : Matrix4d.t D :=
  let row i := Vector4d.mk (f i 0) (f i 1) (f i 2) (f i 3) in
  Matrix4d.mk (row 0) (row 1) (row 2) (row 3).

(** [Matrix4d::Identity()] *)
Definition Matrix4d_Identity : Matrix4d.t D :=
  Matrix4d_of (fun i j => if Nat.eqb i j then dunit else dzero).

(** [a * b] *)
Definition Matrix4d_mul (a b : Matrix4d.t D) : Matrix4d.t D :=
  Matrix4d_of (fun i j =>
    Matrix4d_at a i 0 * Matrix4d_at b 0 j + Matrix4d_at a i 1 * Matrix4d_at b 1 j
    + Matrix4d_at a i 2 * Matrix4d_at b 2 j + Matrix4d_at a i 3 * Matrix4d_at b 3 j).

(** [a == b]: every pair of coefficients compares equal. *)
Definition Matrix4d_eqb (a b : Matrix4d.t D) : bool :=
  forallb (fun i => forallb (fun j => Matrix4d_at a i j == Matrix4d_at b i j)
                            [0; 1; 2; 3])
          [0; 1; 2; 3].

(** [m.inverse()], by cofactors: the transposed cofactor matrix over the
    determinant. *)
Definition skip (k i : nat) : nat := if Nat.ltb i k then i else S i.

Definition det3 (f : nat -> nat -> D) : D :=
  f 0 0 * (f 1 1 * f 2 2 - f 1 2 * f 2 1)
  - f 0 1 * (f 1 0 * f 2 2 - f 1 2 * f 2 0)
  + f 0 2 * (f 1 0 * f 2 1 - f 1 1 * f 2 0).

Definition cofactor (m : Matrix4d.t D) (i j : nat) : D :=
  let minor := det3 (fun a b => Matrix4d_at m (skip i a) (skip j b)) in
  if Nat.even (Nat.add i j) then minor else - minor.

Definition Matrix4d_determinant (m : Matrix4d.t D) : D :=
  Matrix4d_at m 0 0 * cofactor m 0 0 + Matrix4d_at m 0 1 * cofactor m 0 1
  + Matrix4d_at m 0 2 * cofactor m 0 2 + Matrix4d_at m 0 3 * cofactor m 0 3.

Definition Matrix4d_inverse (m : Matrix4d.t D) : Matrix4d.t D :=
  Matrix4d_of (fun i j => cofactor m j i / Matrix4d_determinant m).

(** [Quaterniond::toRotationMatrix()], coefficient [(i, j)] *)
Definition toRotationMatrix (q : Quaternion.t D) (i j : nat) : D :=
  let two := dunit + dunit in
  let tx := two * Quaternion.x q in
  let ty := two * Quaternion.y q in
  let tz := two * Quaternion.z q in
  let twx := tx * Quaternion.w q in
  let twy := ty * Quaternion.w q in
  let twz := tz * Quaternion.w q in
  let txx := tx * Quaternion.x q in
  let txy := ty * Quaternion.x q in
  let txz := tz * Quaternion.x q in
  let tyy := ty * Quaternion.y q in
  let tyz := tz * Quaternion.y q in
  let tzz := tz * Quaternion.z q in
  match i, j with
  | 0, 0 => dunit - (tyy + tzz)
  | 0, 1 => txy - twz
  | 0, 2 => txz + twy
  | 1, 0 => txy + twz
  | 1, 1 => dunit - (txx + tzz)
  | 1, 2 => tyz - twx
  | 2, 0 => txz - twy
  | 2, 1 => tyz + twx
  | _, _ => dunit - (txx + tyy)
  end.

End Eigen.

(** ** tf2 *)

(** What a call that may throw returns: the exception's [what()] or the
    value. *)
Definition Result (A : Type) : Type := (string + A)%type.

(** [tf2::TimePoint]: nanoseconds since the epoch. *)
Definition TimePoint : Type := Z.

(** The transform buffer as the node sees it: [lookupTransform target source
    time], which throws [tf2::TransformException] when the transform is not
    available. The buffer is filled by the transform listener, outside the
    node's callbacks. *)
Definition TfBuffer (D : Type) : Type :=
  string -> string -> TimePoint -> Result (TransformStamped.t D).

Section Tf2.
Context {D : Type} `{Scalar D}.
Local Open Scope nat_scope.
Local Open Scope double_scope.

(** [tf2::fromMsg(pose, affine)] followed by [affine.matrix()]: the
    translation by the position composed with the rotation of the
    quaternion. *)
Definition fromMsg (p : Pose.t D) : Matrix4d.t D :=
  let r := toRotationMatrix (Pose.orientation p) in
  let t := Pose.position p in
  Matrix4d.mk
    (Vector4d.mk (r 0 0) (r 0 1) (r 0 2) (Point.x t))
    (Vector4d.mk (r 1 0) (r 1 1) (r 1 2) (Point.y t))
    (Vector4d.mk (r 2 0) (r 2 1) (r 2 2) (Point.z t))
    (Vector4d.mk dzero dzero dzero dunit).

(** [tf2::doTransform] on a [Vector3Stamped]: a free vector is rotated, the
    translation of the transform does not act on it. *)
Definition doTransform (v : Vector3.t D) (transform : TransformStamped.t D)
  : Vector3.t D :=
  let r := toRotationMatrix (Transform.rotation (TransformStamped.transform transform)) in
  let row i :=
    r i 0 * Vector3.x v + r i 1 * Vector3.y v + r i 2 * Vector3.z v in
  Vector3.mk (row 0) (row 1) (row 2).

End Tf2.

(** ** The estimator class of [ekf.hpp] *)

(** The enumeration [STATE]: the index of each pose component in the state
    vector. *)
Module STATE.
Record t : Type :=
  mk { X : nat; Y : nat; Z : nat; QX : nat; QY : nat; QZ : nat; QW : nat }.
End STATE.

(** The member functions of the estimator the node calls. The class is
    declared in [ekf.hpp]; the node is written against this interface, and
    every property of the node that does not name a particular estimator
    holds for all of its implementations. *)
Class EKFEstimator (D E : Type) : Type := {
  STATE_ : STATE.t;
  EKFEstimator_new : E;
  getNumState : E -> nat;
  setVarImuGyro : D -> E -> E;
  setVarImuAcc : D -> E -> E;
  setInitialX : VectorXd D -> E -> E;
  getX : E -> VectorXd D;
  predictionUpdate : D -> Vector3d.t D -> Vector3d.t D -> E -> E;
  observationUpdate : Vector3d.t D -> Vector3d.t D -> E -> E
}.

(** ** The node *)

(** What a callback does to the world outside the node's own members: the
    calls into the estimator, the messages it publishes and the lines it
    logs, in the order they happen. *)
Inductive Severity : Type := INFO | WARN | ERROR.

Inductive Effect (D : Type) : Type :=
| ekf_setInitialX (x : VectorXd D)
| ekf_predictionUpdate (current_time_imu : D) (gyro linear_acceleration : Vector3d.t D)
| ekf_observationUpdate (y variance : Vector3d.t D)
| publish (msg : PoseStamped.t D)
| sendTransform (msg : TransformStamped.t D)
| log (severity : Severity) (text : string).
Arguments ekf_setInitialX {D}.
Arguments ekf_predictionUpdate {D}.
Arguments ekf_observationUpdate {D}.
Arguments publish {D}.
Arguments sendTransform {D}.
Arguments log {D}.

(** The parameter overrides the node is started with. *)
Record NodeOptions (D : Type) : Type := {
  reference_frame_id : option string;
  robot_frame_id : option string;
  initial_pose_topic : option string;
  imu_topic : option string;
  odom_topic : option string;
  gnss_pose_topic : option string;
  pub_period : option Z;
  var_imu_w : option D;
  var_imu_acc : option D;
  var_gnss_xy : option D;
  var_gnss_z : option D;
  var_odom_xyz : option D;
  use_gnss : option bool;
  use_odom : option bool;
  use_gnss_as_initial_pose : option bool;
  broadcast_tf_topic : option bool
}.
Arguments reference_frame_id {D}.
Arguments robot_frame_id {D}.
Arguments initial_pose_topic {D}.
Arguments imu_topic {D}.
Arguments odom_topic {D}.
Arguments gnss_pose_topic {D}.
Arguments pub_period {D}.
Arguments var_imu_w {D}.
Arguments var_imu_acc {D}.
Arguments var_gnss_xy {D}.
Arguments var_gnss_z {D}.
Arguments var_odom_xyz {D}.
Arguments use_gnss {D}.
Arguments use_odom {D}.
Arguments use_gnss_as_initial_pose {D}.
Arguments broadcast_tf_topic {D}.

(** The members the constructor reads from the parameters and never writes
    again. *)
Record Parameters (D : Type) : Type := {
  reference_frame_id_ : string;
  robot_frame_id_ : string;
  initial_pose_topic_ : string;
  imu_topic_ : string;
  odom_topic_ : string;
  gnss_pose_topic_ : string;
  pub_period_ : Z;
  var_imu_w_ : D;
  var_imu_acc_ : D;
  var_gnss_xy_ : D;
  var_gnss_z_ : D;
  var_odom_xyz_ : D;
  use_gnss_ : bool;
  use_odom_ : bool;
  use_gnss_as_initial_pose_ : bool;
  broadcast_tf_topic_ : bool
}.
Arguments reference_frame_id_ {D}.
Arguments robot_frame_id_ {D}.
Arguments initial_pose_topic_ {D}.
Arguments imu_topic_ {D}.
Arguments odom_topic_ {D}.
Arguments gnss_pose_topic_ {D}.
Arguments pub_period_ {D}.
Arguments var_imu_w_ {D}.
Arguments var_imu_acc_ {D}.
Arguments var_gnss_xy_ {D}.
Arguments var_gnss_z_ {D}.
Arguments var_odom_xyz_ {D}.
Arguments use_gnss_ {D}.
Arguments use_odom_ {D}.
Arguments use_gnss_as_initial_pose_ {D}.
Arguments broadcast_tf_topic_ {D}.

(** The subscriptions and the timer the constructor creates: the topic of
    each subscription, the period of the timer in milliseconds. *)
Record Subscriptions : Type := {
  sub_initial_pose_ : option string;
  sub_imu_ : string;
  sub_odom_ : string;
  sub_gnss_pose_ : string;
  timer_ : Z
}.

Record EkfLocalizationComponent (D E : Type) : Type := {
  params : Parameters D;
  subscriptions : Subscriptions;
  tfbuffer_ : TfBuffer D;
  ekf_ : E;
  var_gnss_ : Vector3d.t D;
  var_odom_ : Vector3d.t D;
  initial_pose_ : option (PoseStamped.t D);
  current_pose_ : PoseStamped.t D;
  current_pose_odom_ : PoseStamped.t D;
  previous_odom_mat_ : Matrix4d.t D;
  current_stamp_ : Time.t
}.
Arguments params {D E}.
Arguments subscriptions {D E}.
Arguments tfbuffer_ {D E}.
Arguments ekf_ {D E}.
Arguments var_gnss_ {D E}.
Arguments var_odom_ {D E}.
Arguments initial_pose_ {D E}.
Arguments current_pose_ {D E}.
Arguments current_pose_odom_ {D E}.
Arguments previous_odom_mat_ {D E}.
Arguments current_stamp_ {D E}.

Section Node.
Context {D E : Type} `{Scalar D} `{EKFEstimator D E}.
Local Open Scope nat_scope.
Local Open Scope double_scope.

Local Abbreviation Component := (EkfLocalizationComponent D E).

(** [std::optional]'s conversion to [bool] *)
Definition has_value {A : Type} (o : option A) : bool :=
  match o with Some _ => true | None => false end.

(** Assignments to the members the callbacks write. *)
Definition set_tfbuffer_ (v : TfBuffer D) (c : Component) : Component :=
  {| params := params c; subscriptions := subscriptions c; tfbuffer_ := v;
     ekf_ := ekf_ c; var_gnss_ := var_gnss_ c; var_odom_ := var_odom_ c;
     initial_pose_ := initial_pose_ c; current_pose_ := current_pose_ c;
     current_pose_odom_ := current_pose_odom_ c;
     previous_odom_mat_ := previous_odom_mat_ c;
     current_stamp_ := current_stamp_ c |}.

Definition set_ekf_ (v : E) (c : Component) : Component :=
  {| params := params c; subscriptions := subscriptions c;
     tfbuffer_ := tfbuffer_ c;
     ekf_ := v; var_gnss_ := var_gnss_ c; var_odom_ := var_odom_ c;
     initial_pose_ := initial_pose_ c; current_pose_ := current_pose_ c;
     current_pose_odom_ := current_pose_odom_ c;
     previous_odom_mat_ := previous_odom_mat_ c;
     current_stamp_ := current_stamp_ c |}.

Definition set_initial_pose_ (v : option (PoseStamped.t D)) (c : Component)
  : Component :=
  {| params := params c; subscriptions := subscriptions c;
     tfbuffer_ := tfbuffer_ c;
     ekf_ := ekf_ c; var_gnss_ := var_gnss_ c; var_odom_ := var_odom_ c;
     initial_pose_ := v; current_pose_ := current_pose_ c;
     current_pose_odom_ := current_pose_odom_ c;
     previous_odom_mat_ := previous_odom_mat_ c;
     current_stamp_ := current_stamp_ c |}.

Definition set_current_pose_ (v : PoseStamped.t D) (c : Component) : Component :=
  {| params := params c; subscriptions := subscriptions c;
     tfbuffer_ := tfbuffer_ c;
     ekf_ := ekf_ c; var_gnss_ := var_gnss_ c; var_odom_ := var_odom_ c;
     initial_pose_ := initial_pose_ c; current_pose_ := v;
     current_pose_odom_ := current_pose_odom_ c;
     previous_odom_mat_ := previous_odom_mat_ c;
     current_stamp_ := current_stamp_ c |}.

Definition set_current_pose_odom_ (v : PoseStamped.t D) (c : Component)
  : Component :=
  {| params := params c; subscriptions := subscriptions c;
     tfbuffer_ := tfbuffer_ c;
     ekf_ := ekf_ c; var_gnss_ := var_gnss_ c; var_odom_ := var_odom_ c;
     initial_pose_ := initial_pose_ c; current_pose_ := current_pose_ c;
     current_pose_odom_ := v;
     previous_odom_mat_ := previous_odom_mat_ c;
     current_stamp_ := current_stamp_ c |}.

Definition set_previous_odom_mat_ (v : Matrix4d.t D) (c : Component) : Component :=
  {| params := params c; subscriptions := subscriptions c;
     tfbuffer_ := tfbuffer_ c;
     ekf_ := ekf_ c; var_gnss_ := var_gnss_ c; var_odom_ := var_odom_ c;
     initial_pose_ := initial_pose_ c; current_pose_ := current_pose_ c;
     current_pose_odom_ := current_pose_odom_ c;
     previous_odom_mat_ := v;
     current_stamp_ := current_stamp_ c |}.

Definition set_current_stamp_ (v : Time.t) (c : Component) : Component :=
  {| params := params c; subscriptions := subscriptions c;
     tfbuffer_ := tfbuffer_ c;
     ekf_ := ekf_ c; var_gnss_ := var_gnss_ c; var_odom_ := var_odom_ c;
     initial_pose_ := initial_pose_ c; current_pose_ := current_pose_ c;
     current_pose_odom_ := current_pose_odom_ c;
     previous_odom_mat_ := previous_odom_mat_ c;
     current_stamp_ := v |}.

(** [declare_parameter(name, default)] followed by [get_parameter]: the
    override when the node was started with one, the default otherwise. *)
Definition declare_parameter {A : Type} (dflt : A) (override : option A) : A :=
  default dflt override.

(** [get_name()] *)
Definition get_name : string := "ekf_localization".

Definition declare_parameters (options : NodeOptions D) : Parameters D :=
  {| reference_frame_id_ := declare_parameter "map" (reference_frame_id options);
     robot_frame_id_ := declare_parameter "base_link" (robot_frame_id options);
     initial_pose_topic_ :=
       declare_parameter (get_name ++ "/initial_pose") (initial_pose_topic options);
     imu_topic_ := declare_parameter (get_name ++ "/imu") (imu_topic options);
     odom_topic_ := declare_parameter (get_name ++ "/odom") (odom_topic options);
     gnss_pose_topic_ :=
       declare_parameter (get_name ++ "/gnss_pose") (gnss_pose_topic options);
     pub_period_ := declare_parameter 10%Z (pub_period options);
     var_imu_w_ := declare_parameter (dlit 1 100) (var_imu_w options);
     var_imu_acc_ := declare_parameter (dlit 1 100) (var_imu_acc options);
     var_gnss_xy_ := declare_parameter (dlit 1 10) (var_gnss_xy options);
     var_gnss_z_ := declare_parameter (dlit 15 100) (var_gnss_z options);
     var_odom_xyz_ := declare_parameter (dlit 2 10) (var_odom_xyz options);
     use_gnss_ := declare_parameter true (use_gnss options);
     use_odom_ := declare_parameter false (use_odom options);
     use_gnss_as_initial_pose_ :=
       declare_parameter false (use_gnss_as_initial_pose options);
     broadcast_tf_topic_ := declare_parameter true (broadcast_tf_topic options) |}.

(** The constructor. Two members get their first value outside the
    constructor's body: the transform buffer, filled by its listener, and
    [previous_odom_mat_], whose declaration is in the class header; both are
    arguments here. The message members start as default messages and the
    stamp as time zero. *)
Definition EkfLocalizationComponent_new
    (options : NodeOptions D) (tf : TfBuffer D) (previous_odom_mat0 : Matrix4d.t D)
  : Component :=
  let p := declare_parameters options in
  {| params := p;
     subscriptions :=
       {| sub_initial_pose_ :=
            if negb (use_gnss_as_initial_pose_ p)
            then Some (initial_pose_topic_ p) else None;
          sub_imu_ := imu_topic_ p;
          sub_odom_ := odom_topic_ p;
          sub_gnss_pose_ := gnss_pose_topic_ p;
          timer_ := pub_period_ p |};
     tfbuffer_ := tf;
     ekf_ := setVarImuAcc (var_imu_acc_ p) (setVarImuGyro (var_imu_w_ p) EKFEstimator_new);
     var_gnss_ := Vector3d.mk (var_gnss_xy_ p) (var_gnss_xy_ p) (var_gnss_z_ p);
     var_odom_ := Vector3d.mk (var_odom_xyz_ p) (var_odom_xyz_ p) (var_odom_xyz_ p);
     initial_pose_ := None;
     current_pose_ := PoseStamped_default;
     current_pose_odom_ := PoseStamped_default;
     previous_odom_mat_ := previous_odom_mat0;
     current_stamp_ := Time.zero |}.

Definition initialPoseCallback (msg : PoseStamped.t D) (c : Component)
  : Component * list (Effect D) :=
  let c := set_initial_pose_ (Some msg) c in
  let c := set_current_pose_ msg c in
  let position := Pose.position (PoseStamped.pose (current_pose_ c)) in
  let orientation := Pose.orientation (PoseStamped.pose (current_pose_ c)) in
  let x := VectorXd_Zero (getNumState (ekf_ c)) in
  let x := VectorXd_set x (STATE.X STATE_) (Point.x position) in
  let x := VectorXd_set x (STATE.Y STATE_) (Point.y position) in
  let x := VectorXd_set x (STATE.Z STATE_) (Point.z position) in
  let x := VectorXd_set x (STATE.QX STATE_) (Quaternion.x orientation) in
  let x := VectorXd_set x (STATE.QY STATE_) (Quaternion.y orientation) in
  let x := VectorXd_set x (STATE.QZ STATE_) (Quaternion.z orientation) in
  let x := VectorXd_set x (STATE.QW STATE_) (Quaternion.w orientation) in
  (set_ekf_ (setInitialX x (ekf_ c)) c,
   [log INFO "initial pose callback"; ekf_setInitialX x]).

Definition predictUpdate (imu_msg : Imu.t D) (c : Component)
  : Component * list (Effect D) :=
  let stamp := Header.stamp (Imu.header imu_msg) in
  let c := set_current_stamp_ stamp c in
  let current_time_imu :=
    dofZ (Time.sec stamp) + dofZ (Time.nanosec stamp) * dlit 1 1000000000 in
  let gyro :=
    Vector3d.mk (Vector3.x (Imu.angular_velocity imu_msg))
                (Vector3.y (Imu.angular_velocity imu_msg))
                (Vector3.z (Imu.angular_velocity imu_msg)) in
  let linear_acceleration :=
    Vector3d.mk (Vector3.x (Imu.linear_acceleration imu_msg))
                (Vector3.y (Imu.linear_acceleration imu_msg))
                (Vector3.z (Imu.linear_acceleration imu_msg)) in
  (set_ekf_ (predictionUpdate current_time_imu gyro linear_acceleration (ekf_ c)) c,
   [ekf_predictionUpdate current_time_imu gyro linear_acceleration]).

Definition measurementUpdate
    (pose_msg : PoseStamped.t D) (variance : Vector3d.t D) (c : Component)
  : Component * list (Effect D) :=
  let c := set_current_stamp_ (Header.stamp (PoseStamped.header pose_msg)) c in
  let position := Pose.position (PoseStamped.pose pose_msg) in
  let y := Vector3d.mk (Point.x position) (Point.y position) (Point.z position) in
  (set_ekf_ (observationUpdate y variance (ekf_ c)) c,
   [ekf_observationUpdate y variance]).

(** [tf2::TimePoint(seconds(sec) + nanoseconds(nanosec))] *)
Definition time_point_of (stamp : Time.t) : TimePoint :=
  (Time.sec stamp * 1000000000 + Time.nanosec stamp)%Z.

Definition imu_callback (msg : Imu.t D) (c : Component)
  : Component * list (Effect D) :=
  if has_value (initial_pose_ c) then
      let acc_in := Imu.linear_acceleration msg in
      let w_in := Imu.angular_velocity msg in
      let time_point := time_point_of (Header.stamp (Imu.header msg)) in
      match tfbuffer_ c (robot_frame_id_ (params c))
                      (Header.frame_id (Imu.header msg)) time_point with
      | inr transform =>
          let acc_out := doTransform acc_in transform in
          let w_out := doTransform w_in transform in
          let transformed_msg :=
            Imu.mk (Header.mk (Header.stamp (Imu.header msg)) "")
                   Quaternion_default w_out acc_out in
          predictUpdate transformed_msg c
      | inl what => (c, [log ERROR what])
      end
  else (c, []).

Definition odom_callback (msg : Odometry.t D) (c : Component)
  : Component * list (Effect D) :=
  if has_value (initial_pose_ c) && use_odom_ (params c) then
    let odom_mat := fromMsg (Odometry.pose msg) in
    if Matrix4d_eqb (previous_odom_mat_ c) Matrix4d_Identity then
      let c := set_current_pose_odom_ (current_pose_ c) c in
      let c := set_previous_odom_mat_ odom_mat c in
      (c, [])
    else
      let current_trans := fromMsg (PoseStamped.pose (current_pose_odom_ c)) in
      let current_trans :=
        Matrix4d_mul
          (Matrix4d_mul current_trans (Matrix4d_inverse (previous_odom_mat_ c)))
          odom_mat in
      let pose :=
        PoseStamped.mk (Odometry.header msg)
          (Pose.mk (Point.mk (Matrix4d_at current_trans 0 3)
                             (Matrix4d_at current_trans 1 3)
                             (Matrix4d_at current_trans 2 3))
                   Quaternion_default) in
      let (c, out) := measurementUpdate pose (var_odom_ c) c in
      let c := set_current_pose_odom_ (current_pose_ c) c in
      let c := set_previous_odom_mat_ odom_mat c in
      (c, out)
  else (c, []).

Definition gnss_pose_callback (msg : PoseStamped.t D) (c : Component)
  : Component * list (Effect D) :=
  if use_gnss_as_initial_pose_ (params c) && negb (has_value (initial_pose_ c))
  then initialPoseCallback msg c
  else if has_value (initial_pose_ c) && use_gnss_ (params c)
       then measurementUpdate msg (var_gnss_ c) c
       else (c, []).

Definition broadcastPose (c : Component) : Component * list (Effect D) :=
  if has_value (initial_pose_ c) then
      let x := getX (ekf_ c) in
      let header := Header.mk (current_stamp_ c) (reference_frame_id_ (params c)) in
      let position :=
        Point.mk (VectorXd_at x (STATE.X STATE_)) (VectorXd_at x (STATE.Y STATE_))
                 (VectorXd_at x (STATE.Z STATE_)) in
      let orientation :=
        Quaternion.mk (VectorXd_at x (STATE.QX STATE_)) (VectorXd_at x (STATE.QY STATE_))
                      (VectorXd_at x (STATE.QZ STATE_)) (VectorXd_at x (STATE.QW STATE_)) in
      let c := set_current_pose_ (PoseStamped.mk header (Pose.mk position orientation)) c in
      let pose := PoseStamped.pose (current_pose_ c) in
      let transform_stamped :=
        TransformStamped.mk
          (Header.mk (current_stamp_ c) (reference_frame_id_ (params c)))
          (robot_frame_id_ (params c))
          (Transform.mk
             (Vector3.mk (Point.x (Pose.position pose)) (Point.y (Pose.position pose))
                         (Point.z (Pose.position pose)))
             (Pose.orientation pose)) in
      (c, publish (current_pose_ c)
          :: if broadcast_tf_topic_ (params c)
             then [sendTransform transform_stamped] else [])
  else (c, [log WARN "initial pose does not recieved."]).

(** What reaches the node: a message on one of its subscriptions, a tick of
    its timer, or the listener refreshing the transform buffer. *)
Inductive Input : Type :=
| InitialPose (msg : PoseStamped.t D)
| ImuSample (msg : Imu.t D)
| OdomSample (msg : Odometry.t D)
| GnssPose (msg : PoseStamped.t D)
| Timer
| TfUpdate (tf : TfBuffer D).

(** One input handled by the callback bound to it; a message for a
    subscription that was not created goes nowhere. *)
Definition deliver (i : Input) (c : Component) : Component * list (Effect D) :=
  match i with
  | InitialPose msg =>
      if has_value (sub_initial_pose_ (subscriptions c))
      then initialPoseCallback msg c else (c, [])
  | ImuSample msg => imu_callback msg c
  | OdomSample msg => odom_callback msg c
  | GnssPose msg => gnss_pose_callback msg c
  | Timer => broadcastPose c
  | TfUpdate tf => (set_tfbuffer_ tf c, [])
  end.

(** The node's single-threaded executor: inputs handled one after the
    other. *)
Fixpoint spin (inputs : list Input) (c : Component) : Component * list (Effect D) :=
  match inputs with
  | [] => (c, [])
  | i :: rest =>
      let (c1, out1) := deliver i c in
      let (c2, out2) := spin rest c1 in
      (c2, (out1 ++ out2)%list)
  end.

End Node.
Arguments Input : clear implicits.


(** ** An estimator after the specification *)

(** The class behind [ekf_] lives in [ekf.hpp], which is not among the
    sources; [SpecEkf] is that estimator as sections 3, 4 and 7 of the
    specification describe it, for the properties that speak about the
    estimator itself. Beside it stands a variant whose initialization is a
    plain assignment, the estimator the node is run with on concrete
    inputs. *)
Module SpecEkf.

(** [Eigen::MatrixXd], row by row. *)
Definition MatrixXd (D : Type) : Type := list (list D).

(** Modelled from the spec: what section 6 lists as the configuration the
    estimator consumes beside the two inertial variances: the gravity vector
    and the initial covariance magnitude; and the two matrices of the
    covariance propagation that section 4.2 leaves to the standard
    derivations, the Jacobian [F] (from the state, the inertial sample and
    [dt]) and the process noise [Q] (from the two variances and [dt]). *)
Record Config (D : Type) : Type := {
  gravity : Vector3d.t D;
  initial_variance : D;
  jacobian : VectorXd D -> Vector3d.t D -> Vector3d.t D -> D -> MatrixXd D;
  process_noise : D -> D -> D -> MatrixXd D
}.
Arguments gravity {D}.
Arguments initial_variance {D}.
Arguments jacobian {D}.
Arguments process_noise {D}.

(** Modelled from the spec: the estimator's members (section 3): the state
    vector, the covariance, the two inertial variances, whether a reference
    pose was given, and the time of the previous inertial sample. *)
Record t (D : Type) : Type := mk {
  x_ : VectorXd D;
  P_ : MatrixXd D;
  var_imu_gyro_ : D;
  var_imu_acc_ : D;
  ready_ : bool;
  previous_time_imu_ : option D
}.
Arguments mk {D}.
Arguments x_ {D}.
Arguments P_ {D}.
Arguments var_imu_gyro_ {D}.
Arguments var_imu_acc_ {D}.
Arguments ready_ {D}.
Arguments previous_time_imu_ {D}.

(** Modelled from the spec: the order of the state vector (section 3):
    position, orientation [(qx, qy, qz, qw)], velocity; no bias terms. *)
Definition STATE : STATE.t := STATE.mk 0 1 2 3 4 5 6.
Definition VX : nat := 7.
Definition VY : nat := 8.
Definition VZ : nat := 9.
Definition num_state : nat := 10.

Section Model.
Context {D : Type} `{Scalar D}.
Variable cfg : Config D.
Local Open Scope nat_scope.
Local Open Scope double_scope.

Definition MatrixXd_of (rows cols : nat) (f : nat -> nat -> D) : MatrixXd D :=
  map (fun i => map (f i) (seq 0 cols)) (seq 0 rows).

Definition MatrixXd_at (m : MatrixXd D) (i j : nat) : D :=
  default dzero (m !! i ≫= fun row => row !! j).

(** [f 0 + f 1 + ... + f (n - 1)] *)
Definition sum_upto (n : nat) (f : nat -> D) : D :=
  fold_left (fun acc k => acc + f k) (seq 0 n) dzero.

(** Modelled from the spec: the filter before initialization (section 3,
    lifecycle): nothing known, not ready. *)
Definition new : t D :=
  mk (VectorXd_Zero num_state) (MatrixXd_of num_state num_state (fun _ _ => dzero))
     dzero dzero false None.

Definition setVarImuGyro (v : D) (e : t D) : t D :=
  mk (x_ e) (P_ e) v (var_imu_acc_ e) (ready_ e) (previous_time_imu_ e).

Definition setVarImuAcc (v : D) (e : t D) : t D :=
  mk (x_ e) (P_ e) (var_imu_gyro_ e) v (ready_ e) (previous_time_imu_ e).

(** Modelled from the spec: the configured initial covariance (section 4.1),
    diagonal. *)
Definition initial_covariance : MatrixXd D :=
  MatrixXd_of num_state num_state
    (fun i j => if Nat.eqb i j then initial_variance cfg else dzero).

(** An initialization that is a plain assignment: the state becomes the
    given vector as it is, the covariance the configured diagonal, the filter
    ready, and the history of inertial samples is lost. This is not the
    initialization of section 4.1, which is [setInitialX] below; it is the
    simplest one for which [getX] returns what was stored. *)
Definition store (x : VectorXd D) (e : t D) : t D :=
  mk x initial_covariance (var_imu_gyro_ e) (var_imu_acc_ e) true None.

(** Modelled from the spec: [getState] (section 4.4), a read-only snapshot. *)
Definition getX (e : t D) : VectorXd D := x_ e.

Definition getNumState (e : t D) : nat := num_state.

(** The orientation, velocity and position parts of a state vector. *)
Definition orientation_of (x : VectorXd D) : Quaternion.t D :=
  Quaternion.mk (VectorXd_at x (STATE.QX STATE)) (VectorXd_at x (STATE.QY STATE))
                (VectorXd_at x (STATE.QZ STATE)) (VectorXd_at x (STATE.QW STATE)).

Definition position_of (x : VectorXd D) : Vector3d.t D :=
  Vector3d.mk (VectorXd_at x (STATE.X STATE)) (VectorXd_at x (STATE.Y STATE))
              (VectorXd_at x (STATE.Z STATE)).

Definition velocity_of (x : VectorXd D) : Vector3d.t D :=
  Vector3d.mk (VectorXd_at x VX) (VectorXd_at x VY) (VectorXd_at x VZ).

(** The squared norm and the norm of a quaternion. *)
Definition squaredNorm (q : Quaternion.t D) : D :=
  Quaternion.x q * Quaternion.x q + Quaternion.y q * Quaternion.y q
  + Quaternion.z q * Quaternion.z q + Quaternion.w q * Quaternion.w q.

Definition norm (q : Quaternion.t D) : D := dsqrt (squaredNorm q).

Definition normalized (q : Quaternion.t D) : Quaternion.t D :=
  let n := norm q in
  Quaternion.mk (Quaternion.x q / n) (Quaternion.y q / n)
                (Quaternion.z q / n) (Quaternion.w q / n).

(** Modelled from the spec: one step of the quaternion derivative
    [q' = q (x) (0, w) / 2] over [dt] (section 4.2), before the
    re-normalization. *)
Definition integrated (q : Quaternion.t D) (w : Vector3d.t D) (dt : D)
  : Quaternion.t D :=
  let half := dunit / (dunit + dunit) in
  let qx := Quaternion.x q in
  let qy := Quaternion.y q in
  let qz := Quaternion.z q in
  let qw := Quaternion.w q in
  let wx := Vector3d.x w in
  let wy := Vector3d.y w in
  let wz := Vector3d.z w in
  Quaternion.mk
    (qx + half * (qw * wx + qy * wz - qz * wy) * dt)
    (qy + half * (qw * wy + qz * wx - qx * wz) * dt)
    (qz + half * (qw * wz + qx * wy - qy * wx) * dt)
    (qw + half * (- (qx * wx + qy * wy + qz * wz)) * dt).

Definition all_finite (l : list D) : bool := forallb disfinite l.

(** Modelled from the spec: [initialize] (sections 4.1 and 7) as the node
    calls it, with the whole state vector. A vector whose pose holds a
    non-finite number is rejected and the filter left as it is. Otherwise
    the orientation block is re-normalized, the rest of the vector is taken
    as it is given, the covariance becomes the configured diagonal, the
    filter is ready and the history of inertial samples is lost. *)
Definition setInitialX (x : VectorXd D) (e : t D) : t D :=
  let p := position_of x in
  let q := orientation_of x in
  if negb (all_finite
             [Vector3d.x p; Vector3d.y p; Vector3d.z p;
              Quaternion.x q; Quaternion.y q; Quaternion.z q; Quaternion.w q])
  then e
  else
    let q' := normalized q in
    let x := VectorXd_set x (STATE.QX STATE) (Quaternion.x q') in
    let x := VectorXd_set x (STATE.QY STATE) (Quaternion.y q') in
    let x := VectorXd_set x (STATE.QZ STATE) (Quaternion.z q') in
    let x := VectorXd_set x (STATE.QW STATE) (Quaternion.w q') in
    mk x initial_covariance (var_imu_gyro_ e) (var_imu_acc_ e) true None.

(** Modelled from the spec: the state after one mechanization step
    (section 4.2): the orientation integrated and re-normalized; the specific
    force rotated into the reference frame by the orientation before the
    step, gravity subtracted; velocity and position integrated by the Euler
    scheme the section writes out. *)
Definition propagated (x : VectorXd D) (gyro acc : Vector3d.t D) (dt : D)
  : VectorXd D :=
  let half := dunit / (dunit + dunit) in
  let q := orientation_of x in
  let p := position_of x in
  let v := velocity_of x in
  let q' := normalized (integrated q gyro dt) in
  let r := toRotationMatrix q in
  let a i g :=
    r i 0 * Vector3d.x acc + r i 1 * Vector3d.y acc + r i 2 * Vector3d.z acc - g in
  let ax := a 0 (Vector3d.x (gravity cfg)) in
  let ay := a 1 (Vector3d.y (gravity cfg)) in
  let az := a 2 (Vector3d.z (gravity cfg)) in
  [ Vector3d.x p + Vector3d.x v * dt + half * ax * dt * dt;
    Vector3d.y p + Vector3d.y v * dt + half * ay * dt * dt;
    Vector3d.z p + Vector3d.z v * dt + half * az * dt * dt;
    Quaternion.x q'; Quaternion.y q'; Quaternion.z q'; Quaternion.w q';
    Vector3d.x v + ax * dt;
    Vector3d.y v + ay * dt;
    Vector3d.z v + az * dt ].

(** Modelled from the spec: the covariance after one step,
    [F P F^T + Q] (section 4.2). *)
Definition propagated_covariance (F P Q : MatrixXd D) : MatrixXd D :=
  MatrixXd_of num_state num_state (fun i j =>
    sum_upto num_state (fun k =>
      sum_upto num_state (fun l =>
        MatrixXd_at F i k * MatrixXd_at P k l * MatrixXd_at F j l))
    + MatrixXd_at Q i j).

(** Modelled from the spec: [predict] (sections 4.2 and 7). Before
    initialization the call does nothing; a sample with a non-finite value
    is rejected; the first sample after initialization only sets the time
    baseline; a timestamp earlier than the previous one is rejected with the
    state untouched; otherwise the state and the covariance advance by
    [dt]. *)
Definition predictionUpdate
    (current_time_imu : D) (gyro linear_acceleration : Vector3d.t D) (e : t D)
  : t D :=
  if negb (ready_ e) then e
  else if negb (all_finite
                  [current_time_imu;
                   Vector3d.x gyro; Vector3d.y gyro; Vector3d.z gyro;
                   Vector3d.x linear_acceleration; Vector3d.y linear_acceleration;
                   Vector3d.z linear_acceleration])
  then e
  else match previous_time_imu_ e with
       | None =>
           mk (x_ e) (P_ e) (var_imu_gyro_ e) (var_imu_acc_ e) true
              (Some current_time_imu)
       | Some previous =>
           if dltb current_time_imu previous then e
           else
             let dt := current_time_imu - previous in
             mk (propagated (x_ e) gyro linear_acceleration dt)
                (propagated_covariance
                   (jacobian cfg (x_ e) gyro linear_acceleration dt)
                   (P_ e)
                   (process_noise cfg (var_imu_gyro_ e) (var_imu_acc_ e) dt))
                (var_imu_gyro_ e) (var_imu_acc_ e) true (Some current_time_imu)
       end.

(** The determinant of a 3x3 matrix is [det3]; its inverse by cofactors. *)
Definition det2 (f : nat -> nat -> D) : D := f 0 0 * f 1 1 - f 0 1 * f 1 0.

Definition inverse3 (f : nat -> nat -> D) (i j : nat) : D :=
  let minor := det2 (fun a b => f (skip j a) (skip i b)) in
  (if Nat.even (Nat.add i j) then minor else - minor) / det3 f.

(** Modelled from the spec: [update] (sections 4.3 and 7). The observation
    reads the position block, so [H] selects the first three components:
    [S] is the position block of [P] plus the measurement variances on the
    diagonal, [K = P H^T S^-1], the innovation is the measured position minus
    the estimated one. The state moves by [K r] except for its orientation
    components, which the correction leaves alone; the covariance becomes
    [(I - K H) P], then is made symmetric. Before initialization, on a
    non-finite input and when [S] is singular the call does nothing. *)
Definition observationUpdate (y variance : Vector3d.t D) (e : t D) : t D :=
  if negb (ready_ e) then e
  else if negb (all_finite
                  [Vector3d.x y; Vector3d.y y; Vector3d.z y;
                   Vector3d.x variance; Vector3d.y variance; Vector3d.z variance])
  then e
  else
    let half := dunit / (dunit + dunit) in
    let x := x_ e in
    let P := P_ e in
    let var i :=
      match i with
      | 0 => Vector3d.x variance
      | 1 => Vector3d.y variance
      | _ => Vector3d.z variance
      end in
    let S i j := if Nat.eqb i j then MatrixXd_at P i j + var i else MatrixXd_at P i j in
    if det3 S == dzero then e
    else
      let K i j := sum_upto 3 (fun k => MatrixXd_at P i k * inverse3 S k j) in
      let r i :=
        match i with
        | 0 => Vector3d.x y - VectorXd_at x (STATE.X STATE)
        | 1 => Vector3d.y y - VectorXd_at x (STATE.Y STATE)
        | _ => Vector3d.z y - VectorXd_at x (STATE.Z STATE)
        end in
      let is_orientation i :=
        Nat.leb (STATE.QX STATE) i && Nat.leb i (STATE.QW STATE) in
      let x' :=
        map (fun i => if is_orientation i then VectorXd_at x i
                      else VectorXd_at x i + sum_upto 3 (fun j => K i j * r j))
            (seq 0 num_state) in
      let P' i j := MatrixXd_at P i j - sum_upto 3 (fun k => K i k * MatrixXd_at P k j) in
      mk x'
         (MatrixXd_of num_state num_state (fun i j => half * (P' i j + P' j i)))
         (var_imu_gyro_ e) (var_imu_acc_ e) true (previous_time_imu_ e).

(** Modelled from the spec: the estimator the node is linked against,
    assembled from the operations above. *)
#[local] Instance estimator : EKFEstimator D (t D) :=
  Build_EKFEstimator D (t D) STATE new getNumState setVarImuGyro setVarImuAcc
    setInitialX getX predictionUpdate observationUpdate.

(** The same estimator with [store] for its initialization. *)
#[local] Instance storing_estimator : EKFEstimator D (t D) :=
  Build_EKFEstimator D (t D) STATE new getNumState setVarImuGyro setVarImuAcc
    store getX predictionUpdate observationUpdate.

End Model.
End SpecEkf.

(** ** A node to run *)

(** Concrete values to run the definitions on, in binary64: a
    configuration of the estimator (standard gravity, an initial variance of
    100, and, for the two matrices the specification leaves open, the
    identity and no process noise), the estimator that stores its initial
    state as it is given, a transform buffer that knows one sensor frame,
    mounted without rotation, and the node started with default parameters
    or with chosen overrides. *)
Module Fixture.

Definition identity_matrix : SpecEkf.MatrixXd float :=
  SpecEkf.MatrixXd_of SpecEkf.num_state SpecEkf.num_state
    (fun i j => if Nat.eqb i j then dunit else dzero).

Definition config : SpecEkf.Config float :=
  {| SpecEkf.gravity := Vector3d.mk dzero dzero (dlit (-980665) 100000);
     SpecEkf.initial_variance := dofZ 100;
     SpecEkf.jacobian := fun _ _ _ _ => identity_matrix;
     SpecEkf.process_noise := fun _ _ _ =>
       SpecEkf.MatrixXd_of SpecEkf.num_state SpecEkf.num_state (fun _ _ => dzero) |}.

#[global] Instance estimator : EKFEstimator float (SpecEkf.t float) :=
  SpecEkf.storing_estimator config.

Definition tf : TfBuffer float :=
  fun target source _ =>
    if String.eqb source "imu_link"
    then inr (TransformStamped.mk (Header.mk Time.zero target) source
                (Transform.mk (Vector3.mk dzero dzero dzero) Quaternion_default))
    else inl "frame does not exist".

Definition defaults : NodeOptions float :=
  {| reference_frame_id := None; robot_frame_id := None;
     initial_pose_topic := None; imu_topic := None; odom_topic := None;
     gnss_pose_topic := None; pub_period := None;
     var_imu_w := None; var_imu_acc := None; var_gnss_xy := None;
     var_gnss_z := None; var_odom_xyz := None;
     use_gnss := None; use_odom := None; use_gnss_as_initial_pose := None;
     broadcast_tf_topic := None |}.

Definition with_flags (odom gnss_as_initial : bool) : NodeOptions float :=
  {| reference_frame_id := None; robot_frame_id := None;
     initial_pose_topic := None; imu_topic := None; odom_topic := None;
     gnss_pose_topic := None; pub_period := None;
     var_imu_w := None; var_imu_acc := None; var_gnss_xy := None;
     var_gnss_z := None; var_odom_xyz := None;
     use_gnss := None; use_odom := Some odom;
     use_gnss_as_initial_pose := Some gnss_as_initial;
     broadcast_tf_topic := None |}.

Definition node (options : NodeOptions float)
  : EkfLocalizationComponent float (SpecEkf.t float) :=
  EkfLocalizationComponent_new options tf Matrix4d_Identity.

Definition stamp (sec : Z) : Header.t := Header.mk (Time.mk sec 0) "map".

Definition pose_at (sec : Z) (x y z : Z) (q : Quaternion.t float)
  : PoseStamped.t float :=
  PoseStamped.mk (stamp sec) (Pose.mk (Point.mk (dofZ x) (dofZ y) (dofZ z)) q).

Definition odom_at (sec : Z) (x y z : Z) (q : Quaternion.t float)
  : Odometry.t float :=
  Odometry.mk (stamp sec) "base_link"
    (Pose.mk (Point.mk (dofZ x) (dofZ y) (dofZ z)) q).

Definition imu_at (sec : Z) (frame : string) : Imu.t float :=
  Imu.mk (Header.mk (Time.mk sec 0) frame) Quaternion_default
    (Vector3.mk dzero dzero (dlit 1 10))
    (Vector3.mk dzero dzero (dlit 980665 100000)).

(** The half turn about the vertical axis. *)
Definition half_turn : Quaternion.t float := Quaternion.mk dzero dzero dunit dzero.

End Fixture.

(** ** Vocabulary of the properties *)

Section Vocabulary.
Context {D E : Type} `{Scalar D} `{EKFEstimator D E}.

Local Abbreviation Component := (EkfLocalizationComponent D E).

(** The inputs that are sensor samples and that, on a node in state [c],
    are not meant to seed the filter: inertial and odometry samples, and GNSS
    poses unless GNSS is the configured source of the initial pose. *)
Definition plain_sample (c : Component) (i : Input D) : bool :=
  match i with
  | ImuSample _ | OdomSample _ => true
  | GnssPose _ => negb (use_gnss_as_initial_pose_ (params c))
  | _ => false
  end.

(** A call of the estimator's prediction or correction. *)
Definition is_estimator_step (e : Effect D) : bool :=
  match e with
  | ekf_predictionUpdate _ _ _ | ekf_observationUpdate _ _ => true
  | _ => false
  end.

Definition is_publication (e : Effect D) : bool :=
  match e with
  | publish _ | sendTransform _ => true
  | _ => false
  end.

(** The stamp an input carries, when it is a sensor sample. *)
Definition sample_stamp (i : Input D) : option Time.t :=
  match i with
  | ImuSample msg => Some (Header.stamp (Imu.header msg))
  | OdomSample msg => Some (Header.stamp (Odometry.header msg))
  | GnssPose msg => Some (Header.stamp (PoseStamped.header msg))
  | _ => None
  end.

(** The stamp of the last sample of [inputs] that reached the estimator's
    prediction or correction, on a node started in state [c]; [before] when
    there is none. *)
Fixpoint last_processed_stamp (inputs : list (Input D)) (c : Component)
    (before : Time.t) : Time.t :=
  match inputs with
  | [] => before
  | i :: rest =>
      let (c1, out) := deliver i c in
      last_processed_stamp rest c1
        (if existsb is_estimator_step out then default before (sample_stamp i)
         else before)
  end.

(** The pose a state vector holds at the indices of [STATE]. *)
Definition pose_of_state (x : VectorXd D) : Pose.t D :=
  Pose.mk
    (Point.mk (VectorXd_at x (STATE.X STATE_)) (VectorXd_at x (STATE.Y STATE_))
              (VectorXd_at x (STATE.Z STATE_)))
    (Quaternion.mk (VectorXd_at x (STATE.QX STATE_)) (VectorXd_at x (STATE.QY STATE_))
                   (VectorXd_at x (STATE.QZ STATE_)) (VectorXd_at x (STATE.QW STATE_))).

(** The seven indices of [STATE], in order. *)
Definition pose_indices : list nat :=
  [STATE.X STATE_; STATE.Y STATE_; STATE.Z STATE_;
   STATE.QX STATE_; STATE.QY STATE_; STATE.QZ STATE_; STATE.QW STATE_].

(** The same three numbers as another type: Eigen's vector for a message's,
    a message's vector for a message's point. *)
Definition vector3d_of (v : Vector3.t D) : Vector3d.t D :=
  Vector3d.mk (Vector3.x v) (Vector3.y v) (Vector3.z v).

Definition vector3d_of_point (p : Point.t D) : Vector3d.t D :=
  Vector3d.mk (Point.x p) (Point.y p) (Point.z p).

Definition vector3_of_point (p : Point.t D) : Vector3.t D :=
  Vector3.mk (Point.x p) (Point.y p) (Point.z p).

(** [predictUpdate]'s conversion of a stamp to seconds. *)
Definition seconds_of (stamp : Time.t) : D :=
  (dofZ (Time.sec stamp) + dofZ (Time.nanosec stamp) * dlit 1 1000000000)%D.

(** Two states of the node with the same parameters, subscriptions and
    variance vectors. *)
Definition same_configuration (c c' : Component) : Prop :=
  params c' = params c /\ subscriptions c' = subscriptions c
  /\ var_gnss_ c' = var_gnss_ c /\ var_odom_ c' = var_odom_ c.

(** The translation column of a homogeneous matrix. *)
Definition translation_of (m : Matrix4d.t D) : Vector3d.t D :=
  Vector3d.mk (Matrix4d_at m 0 3) (Matrix4d_at m 1 3) (Matrix4d_at m 2 3).

(** An estimator call and the estimator after it. *)
Definition replay_one (e : Effect D) (ekf : E) : E :=
  match e with
  | ekf_setInitialX x => setInitialX x ekf
  | ekf_predictionUpdate t gyro acc => predictionUpdate t gyro acc ekf
  | ekf_observationUpdate y variance => observationUpdate y variance ekf
  | _ => ekf
  end.

(** The estimator after the calls of a list of effects, in their order. *)
Definition replay (effects : list (Effect D)) (ekf : E) : E :=
  fold_left (fun acc e => replay_one e acc) effects ekf.

(** The call that seeds the estimator. *)
Definition is_seeding (e : Effect D) : bool :=
  match e with
  | ekf_setInitialX _ => true
  | _ => false
  end.

Definition is_correction (e : Effect D) : bool :=
  match e with
  | ekf_observationUpdate _ _ => true
  | _ => false
  end.

Definition is_timer (i : Input D) : bool :=
  match i with
  | Timer => true
  | _ => false
  end.

Definition is_initial_pose (i : Input D) : bool :=
  match i with
  | InitialPose _ => true
  | _ => false
  end.

(** The inputs that cannot seed a node with parameters [p]: everything but
    a message of the initial-pose channel and, when GNSS is the configured
    source of the initial pose, a GNSS pose. *)
Definition cannot_seed (p : Parameters D) (i : Input D) : bool :=
  match i with
  | InitialPose _ => false
  | GnssPose _ => negb (use_gnss_as_initial_pose_ p)
  | _ => true
  end.

End Vocabulary.

(** The initialization and the timer callback of a node linked against the
    estimator of the specification, configured by [cfg]. *)
Definition initialPoseCallback_spec {D : Type} `{Scalar D} (cfg : SpecEkf.Config D)
    (msg : PoseStamped.t D) (c : EkfLocalizationComponent D (SpecEkf.t D))
  : EkfLocalizationComponent D (SpecEkf.t D) * list (Effect D) :=
  initialPoseCallback (H0 := SpecEkf.estimator cfg) msg c.

Definition broadcastPose_spec {D : Type} `{Scalar D} (cfg : SpecEkf.Config D)
    (c : EkfLocalizationComponent D (SpecEkf.t D))
  : EkfLocalizationComponent D (SpecEkf.t D) * list (Effect D) :=
  broadcastPose (H0 := SpecEkf.estimator cfg) c.

(** The seven numbers of a pose. *)
Definition pose_components {D : Type} (p : Pose.t D) : list D :=
  [Point.x (Pose.position p); Point.y (Pose.position p); Point.z (Pose.position p);
   Quaternion.x (Pose.orientation p); Quaternion.y (Pose.orientation p);
   Quaternion.z (Pose.orientation p); Quaternion.w (Pose.orientation p)].

(** A stamp whose nanoseconds are below one second, as the message
    definition asks. *)
Definition normalized_stamp (stamp : Time.t) : Prop :=
  (0 <= Time.nanosec stamp < 1000000000)%Z.

(** * Properties *)

Section NodeFacts.
Context {D E : Type} `{Scalar D} `{EKFEstimator D E}.

Local Abbreviation Component := (EkfLocalizationComponent D E).

Lemma deliver_before_initialization (c : Component) (i : Input D) :
  has_value (initial_pose_ c) = false ->
  plain_sample c i = true ->
  deliver i c = (c, []).
Proof.
  intros Hinit Hplain.
  destruct i as [msg|msg|msg|msg| |tf]; simpl in Hplain; try discriminate; simpl.
  - unfold imu_callback. now rewrite Hinit.
  - unfold odom_callback. now rewrite Hinit.
  - unfold gnss_pose_callback. rewrite Hinit.
    apply negb_true_iff in Hplain. now rewrite Hplain.
Qed.

(** C1, as the code has it: before initialization every inertial sample,
    every odometry sample and, unless GNSS is the configured source of the
    initial pose, every GNSS pose is dropped in silence: whatever the
    sequence of such samples, the node is left exactly as it was (not ready,
    estimator untouched) and nothing is published, logged or raised. When
    GNSS is the configured source, a GNSS pose received before initialization
    is handled as the initial pose and makes the filter ready. *)
Theorem samples_before_initialization (c : Component) (inputs : list (Input D)) :
  has_value (initial_pose_ c) = false ->
  (forallb (plain_sample c) inputs = true -> spin inputs c = (c, []))
  /\ (use_gnss_as_initial_pose_ (params c) = true ->
      forall msg,
        deliver (GnssPose msg) c = initialPoseCallback msg c
        /\ has_value (initial_pose_ (fst (deliver (GnssPose msg) c))) = true).
Proof.
  intros Hinit. split.
  - induction inputs as [|i rest IH]; intros Hall; [reflexivity|].
    simpl in Hall. apply andb_true_iff in Hall as [Hi Hrest].
    simpl. rewrite (deliver_before_initialization c i Hinit Hi).
    now rewrite (IH Hrest).
  - intros Hflag msg. simpl. unfold gnss_pose_callback.
    rewrite Hinit, Hflag. simpl. split; reflexivity.
Qed.

End NodeFacts.

Lemma samples_before_initialization_witness :
  let c := Fixture.node Fixture.defaults in
  spin [ImuSample (Fixture.imu_at 1 "imu_link");
        OdomSample (Fixture.odom_at 2 1 0 0 Quaternion_default);
        GnssPose (Fixture.pose_at 3 1 2 3 Quaternion_default)] c = (c, []).
Proof.
  intros c.
  apply (proj1 (samples_before_initialization c _ eq_refl)).
  reflexivity.
Defined.

(** C1, as the specification words it, fails: on a node configured to take
    its initial pose from GNSS, a GNSS pose delivered before initialization
    makes the filter ready, writes the estimator and logs a line. *)
Lemma gnss_pose_before_initialization_seeds :
  let c := Fixture.node (Fixture.with_flags false true) in
  let r := deliver (GnssPose (Fixture.pose_at 3 1 2 3 Quaternion_default)) c in
  has_value (initial_pose_ c) = false
  /\ SpecEkf.ready_ (ekf_ c) = false
  /\ has_value (initial_pose_ (fst r)) = true
  /\ SpecEkf.ready_ (ekf_ (fst r)) = true
  /\ snd r <> [].
Proof.
  vm_compute. repeat split; discriminate.
Qed.

Section Initialization.
Context {D E : Type} `{Scalar D} `{EKFEstimator D E}.

Local Abbreviation Component := (EkfLocalizationComponent D E).

Lemma VectorXd_at_set (x : VectorXd D) (i j : nat) (v : D) :
  i < length x ->
  VectorXd_at (VectorXd_set x i v) j = if decide (i = j) then v else VectorXd_at x j.
Proof.
  intros Hi. unfold VectorXd_at, VectorXd_set.
  destruct (decide (i = j)) as [->|Hne].
  - now rewrite list_lookup_insert_eq.
  - now rewrite list_lookup_insert_ne.
Qed.

Lemma VectorXd_set_length (x : VectorXd D) (i : nat) (v : D) :
  length (VectorXd_set x i v) = length x.
Proof. apply length_insert. Qed.

Lemma VectorXd_at_Zero (n i : nat) : VectorXd_at (VectorXd_Zero n) i = dzero.
Proof.
  unfold VectorXd_at, VectorXd_Zero.
  destruct (_ !! _) as [v|] eqn:Hv; [|reflexivity].
  apply lookup_replicate in Hv as [-> _]. reflexivity.
Qed.

(** The vector [initialPoseCallback] hands to the estimator: as long as the
    estimator reports a state size and the seven indices of [STATE] are
    distinct and within it, the vector has that size, carries the pose of the
    message at those indices and zero everywhere else. *)
Lemma initialPoseCallback_vector (c : Component) (msg : PoseStamped.t D) :
  NoDup pose_indices ->
  Forall (fun i => i < getNumState (ekf_ c)) pose_indices ->
  exists x,
    initialPoseCallback msg c
    = (set_ekf_ (setInitialX x (ekf_ c))
         (set_current_pose_ msg (set_initial_pose_ (Some msg) c)),
       [log INFO "initial pose callback"; ekf_setInitialX x])
    /\ length x = getNumState (ekf_ c)
    /\ pose_of_state x = PoseStamped.pose msg
    /\ (forall i, i ∉ pose_indices -> VectorXd_at x i = dzero).
Proof.
  intros Hnodup Hrange.
  unfold pose_indices in *.
  repeat match goal with
         | Hn : NoDup (_ :: _) |- _ => apply NoDup_cons in Hn as [? Hn]
         end.
  repeat match goal with
         | Hf : Forall _ (_ :: _) |- _ => apply Forall_cons in Hf as [? Hf]
         end.
  repeat match goal with
         | Hn : _ ∉ _ :: _ |- _ => apply not_elem_of_cons in Hn as [? Hn]
         end.
  eexists. split; [reflexivity|].
  cbn [set_ekf_ set_current_pose_ set_initial_pose_ ekf_ current_pose_].
  assert (Hlen : forall n, length (VectorXd_Zero (D := D) n) = n)
    by (intros n; apply length_replicate).
  split; [now rewrite !VectorXd_set_length, Hlen|].
  split.
  - destruct msg as [hdr [[px py pz] [qx qy qz qw]]]. unfold pose_of_state. cbn.
    repeat (rewrite VectorXd_at_set by (rewrite ?VectorXd_set_length, Hlen; assumption);
            case_decide; try congruence).
  - intros i Hi.
    repeat match goal with
           | Hn : _ ∉ _ :: _ |- _ => apply not_elem_of_cons in Hn as [? Hn]
           end.
    repeat (rewrite VectorXd_at_set by (rewrite ?VectorXd_set_length, Hlen; assumption);
            case_decide; try congruence).
    apply VectorXd_at_Zero.
Qed.


(** X13: the node itself does not normalize. [initialPoseCallback] keeps
    the message as it is in [initial_pose_] and [current_pose_], and the one
    vector it hands to the estimator carries the quaternion of the message,
    component by component, at the indices of [STATE] (for an estimator that
    keeps those indices distinct and within its state size). *)
Theorem node_hands_quaternion_unchanged (c : Component) (msg : PoseStamped.t D) :
  NoDup pose_indices ->
  Forall (fun i => i < getNumState (ekf_ c)) pose_indices ->
  let r := initialPoseCallback msg c in
  initial_pose_ (fst r) = Some msg
  /\ current_pose_ (fst r) = msg
  /\ exists x,
       List.filter is_seeding (snd r) = [ekf_setInitialX x]
       /\ Pose.orientation (pose_of_state x) = Pose.orientation (PoseStamped.pose msg).
Proof.
  intros Hnodup Hrange r.
  destruct (initialPoseCallback_vector c msg Hnodup Hrange)
    as (x0 & Hcall & _ & Hpose & _).
  subst r. rewrite Hcall. cbn [fst snd initial_pose_ current_pose_
                               set_ekf_ set_current_pose_ set_initial_pose_].
  split; [reflexivity|]. split; [reflexivity|].
  exists x0. split; [reflexivity|]. now rewrite Hpose.
Qed.

End Initialization.

Lemma fixture_indices_distinct :
  NoDup (pose_indices (D := float) (E := SpecEkf.t float)).
Proof. apply (bool_decide_unpack _). vm_compute. exact I. Defined.

Lemma fixture_indices_in_range (e : SpecEkf.t float) :
  Forall (fun i => i < getNumState e)
         (pose_indices (D := float) (E := SpecEkf.t float)).
Proof. apply (bool_decide_unpack _). vm_compute. exact I. Defined.


Lemma node_hands_quaternion_unchanged_witness :
  let q := Quaternion.mk 0%float 0%float 0%float 2%float in
  let r := initialPoseCallback (Fixture.pose_at 0 1 2 3 q)
             (Fixture.node Fixture.defaults) in
  exists x,
    List.filter is_seeding (snd r) = [ekf_setInitialX x]
    /\ Pose.orientation (pose_of_state x) = q.
Proof.
  exact (proj2 (proj2 (node_hands_quaternion_unchanged
                         (Fixture.node Fixture.defaults)
                         (Fixture.pose_at 0 1 2 3
                            (Quaternion.mk 0%float 0%float 0%float 2%float))
                         fixture_indices_distinct
                         (fixture_indices_in_range _)))).
Defined.

Section Dispatch.
Context {D E : Type} `{Scalar D} `{EKFEstimator D E}.

Local Abbreviation Component := (EkfLocalizationComponent D E).

Lemma deliver_keeps_configuration (i : Input D) (c : Component) :
  same_configuration c (fst (deliver i c)).
Proof.
  unfold same_configuration.
  destruct i as [msg|msg|msg|msg| |tf]; simpl;
    unfold initialPoseCallback, imu_callback, odom_callback, gnss_pose_callback,
      broadcastPose, initialPoseCallback, predictUpdate, measurementUpdate;
    repeat case_match; simpl; auto.
Qed.

Lemma spin_keeps_configuration (inputs : list (Input D)) (c : Component) :
  same_configuration c (fst (spin inputs c)).
Proof.
  revert c. induction inputs as [|i rest IH]; intros c; [now repeat split|].
  simpl. destruct (deliver i c) as [c1 out1] eqn:Hd.
  specialize (IH c1). destruct (spin rest c1) as [c2 out2]. simpl in *.
  pose proof (deliver_keeps_configuration i c) as Hc. rewrite Hd in Hc. simpl in Hc.
  unfold same_configuration in *. intuition congruence.
Qed.

Lemma spin_cons (i : Input D) (rest : list (Input D)) (c : Component) :
  spin (i :: rest) c
  = (fst (spin rest (fst (deliver i c))),
     (snd (deliver i c) ++ snd (spin rest (fst (deliver i c))))%list).
Proof.
  simpl. destruct (deliver i c) as [c1 out1]. simpl.
  now destruct (spin rest c1).
Qed.


Lemma imu_callback_lookup (msg : Imu.t D) (c : Component) :
  imu_callback msg c
  = if has_value (initial_pose_ c)
    then match tfbuffer_ c (robot_frame_id_ (params c))
                 (Header.frame_id (Imu.header msg))
                 (time_point_of (Header.stamp (Imu.header msg))) with
         | inr transform =>
             let gyro := vector3d_of (doTransform (Imu.angular_velocity msg) transform) in
             let acc := vector3d_of (doTransform (Imu.linear_acceleration msg) transform) in
             let t := seconds_of (Header.stamp (Imu.header msg)) in
             (set_ekf_ (predictionUpdate t gyro acc (ekf_ c))
                (set_current_stamp_ (Header.stamp (Imu.header msg)) c),
              [ekf_predictionUpdate t gyro acc])
         | inl what => (c, [log ERROR what])
         end
    else (c, []).
Proof.
  unfold imu_callback. destruct (has_value (initial_pose_ c)); [|reflexivity].
  destruct (tfbuffer_ c _ _ _) as [what|transform]; reflexivity.
Qed.


End Dispatch.



Section Measurements.
Context {D E : Type} `{Scalar D} `{EKFEstimator D E}.

Local Abbreviation Component := (EkfLocalizationComponent D E).

Lemma gnss_pose_callback_update (msg : PoseStamped.t D) (c : Component) y v :
  In (ekf_observationUpdate y v) (snd (gnss_pose_callback msg c)) ->
  y = vector3d_of_point (Pose.position (PoseStamped.pose msg)) /\ v = var_gnss_ c.
Proof.
  unfold gnss_pose_callback.
  destruct (use_gnss_as_initial_pose_ (params c) && negb (has_value (initial_pose_ c))).
  - simpl. intros [Hin|[Hin|[]]]; discriminate.
  - destruct (has_value (initial_pose_ c) && use_gnss_ (params c)); simpl.
    + intros [Hin|[]]. injection Hin as <- <-. now split.
    + intros [].
Qed.

Lemma odom_callback_update (msg : Odometry.t D) (c : Component) y v :
  In (ekf_observationUpdate y v) (snd (odom_callback msg c)) ->
  v = var_odom_ c.
Proof.
  unfold odom_callback.
  destruct (has_value (initial_pose_ c) && use_odom_ (params c)); [|intros []].
  destruct (Matrix4d_eqb (previous_odom_mat_ c) Matrix4d_Identity); [intros []|].
  simpl. intros [Hin|[]]. now injection Hin as <- <-.
Qed.

(** C7: on a node started with [options], in every state it can reach, a
    correction that comes from a GNSS pose carries the variances
    [(var_gnss_xy, var_gnss_xy, var_gnss_z)] and a correction that comes from
    an odometry sample carries [(var_odom_xyz, var_odom_xyz, var_odom_xyz)],
    the values of those parameters being the overrides of [options] or the
    declared defaults 0.1, 0.15 and 0.2. A GNSS pose received by a ready
    filter with GNSS enabled does lead to such a correction, at the position
    of the message. *)
Theorem measurement_variances_per_source
    (options : NodeOptions D) (tf : TfBuffer D) (m0 : Matrix4d.t D)
    (inputs : list (Input D)) :
  let c := fst (spin inputs (EkfLocalizationComponent_new options tf m0)) in
  let xy := declare_parameter (dlit 1 10) (var_gnss_xy options) in
  let z := declare_parameter (dlit 15 100) (var_gnss_z options) in
  let xyz := declare_parameter (dlit 2 10) (var_odom_xyz options) in
  (forall msg y v,
      In (ekf_observationUpdate y v) (snd (deliver (GnssPose msg) c)) ->
      v = Vector3d.mk xy xy z)
  /\ (forall msg y v,
        In (ekf_observationUpdate y v) (snd (deliver (OdomSample msg) c)) ->
        v = Vector3d.mk xyz xyz xyz)
  /\ (forall msg,
        has_value (initial_pose_ c) = true -> use_gnss_ (params c) = true ->
        snd (deliver (GnssPose msg) c)
        = [ekf_observationUpdate
             (vector3d_of_point (Pose.position (PoseStamped.pose msg)))
             (Vector3d.mk xy xy z)]).
Proof.
  intros c xy z xyz.
  destruct (spin_keeps_configuration inputs (EkfLocalizationComponent_new options tf m0))
    as (_ & _ & Hg & Ho).
  fold c in Hg, Ho. simpl in Hg, Ho. fold xy z in Hg. fold xyz in Ho.
  split; [|split].
  - intros msg y v Hin. apply gnss_pose_callback_update in Hin as [_ ->]. exact Hg.
  - intros msg y v Hin. apply odom_callback_update in Hin as ->. exact Ho.
  - intros msg Hready Hgnss. simpl. unfold gnss_pose_callback.
    rewrite Hready, Hgnss, andb_false_r. simpl. now rewrite Hg.
Qed.

(** What one input does to [current_stamp_]: it becomes the stamp of the
    input when the input reaches the estimator's prediction or correction,
    and stays otherwise. *)
Lemma deliver_stamp (i : Input D) (c : Component) :
  current_stamp_ (fst (deliver i c))
  = if existsb is_estimator_step (snd (deliver i c))
    then default (current_stamp_ c) (sample_stamp i)
    else current_stamp_ c.
Proof.
  destruct i as [msg|msg|msg|msg| |tf]; simpl.
  - now destruct (has_value (sub_initial_pose_ (subscriptions c))).
  - rewrite imu_callback_lookup.
    destruct (has_value (initial_pose_ c)); [|reflexivity].
    now destruct (tfbuffer_ c _ _ _).
  - unfold odom_callback.
    destruct (has_value (initial_pose_ c) && use_odom_ (params c)); [|reflexivity].
    now destruct (Matrix4d_eqb (previous_odom_mat_ c) Matrix4d_Identity).
  - unfold gnss_pose_callback.
    destruct (use_gnss_as_initial_pose_ (params c) && negb (has_value (initial_pose_ c)));
      [reflexivity|].
    now destruct (has_value (initial_pose_ c) && use_gnss_ (params c)).
  - unfold broadcastPose.
    destruct (has_value (initial_pose_ c)); [|reflexivity].
    simpl. destruct (broadcast_tf_topic_ (params c)); reflexivity.
  - reflexivity.
Qed.

Lemma spin_stamp (inputs : list (Input D)) (c : Component) :
  current_stamp_ (fst (spin inputs c))
  = last_processed_stamp inputs c (current_stamp_ c).
Proof.
  revert c. induction inputs as [|i rest IH]; intros c; [reflexivity|].
  rewrite spin_cons. cbn [fst]. rewrite IH. cbn [last_processed_stamp].
  rewrite deliver_stamp. now destruct (deliver i c).
Qed.


End Measurements.

(** C7 on a run: a ready node with default parameters receives a GNSS
    pose. *)
Lemma measurement_variances_per_source_witness :
  let c := fst (spin [InitialPose (Fixture.pose_at 0 0 0 0 Quaternion_default)]
                  (Fixture.node Fixture.defaults)) in
  snd (deliver (GnssPose (Fixture.pose_at 1 1 2 3 Quaternion_default)) c)
  = [ekf_observationUpdate
       (Vector3d.mk 1 2 3)%float
       (Vector3d.mk (1 / 10) (1 / 10) (15 / 100))%float].
Proof.
  exact (proj2 (proj2 (measurement_variances_per_source
                         Fixture.defaults Fixture.tf Matrix4d_Identity
                         [InitialPose (Fixture.pose_at 0 0 0 0 Quaternion_default)]))
               (Fixture.pose_at 1 1 2 3 Quaternion_default) eq_refl eq_refl).
Defined.

Section Odometry.
Context {D E : Type} `{Scalar D} `{EKFEstimator D E}.

Local Abbreviation Component := (EkfLocalizationComponent D E).

(** The translation of a product with the matrix of a pose depends on the
    pose through its position only. *)
Lemma translation_mul_fromMsg (m : Matrix4d.t D) (p p' : Pose.t D) :
  Pose.position p' = Pose.position p ->
  translation_of (Matrix4d_mul m (fromMsg p'))
  = translation_of (Matrix4d_mul m (fromMsg p)).
Proof.
  destruct p as [t q], p' as [t' q']. simpl. intros ->. reflexivity.
Qed.

Lemma odom_callback_relative (msg : Odometry.t D) (c : Component) :
  has_value (initial_pose_ c) = true ->
  use_odom_ (params c) = true ->
  Matrix4d_eqb (previous_odom_mat_ c) Matrix4d_Identity = false ->
  let y :=
    translation_of
      (Matrix4d_mul
         (Matrix4d_mul (fromMsg (PoseStamped.pose (current_pose_odom_ c)))
                       (Matrix4d_inverse (previous_odom_mat_ c)))
         (fromMsg (Odometry.pose msg))) in
  odom_callback msg c
  = (set_previous_odom_mat_ (fromMsg (Odometry.pose msg))
       (set_current_pose_odom_ (current_pose_ c)
          (set_ekf_ (observationUpdate y (var_odom_ c) (ekf_ c))
             (set_current_stamp_ (Header.stamp (Odometry.header msg)) c))),
     [ekf_observationUpdate y (var_odom_ c)]).
Proof.
  intros Hready Hodom Hprev. unfold odom_callback.
  rewrite Hready, Hodom, Hprev. reflexivity.
Qed.

Lemma gnss_pose_callback_ready (msg : PoseStamped.t D) (c : Component) :
  has_value (initial_pose_ c) = true ->
  gnss_pose_callback msg c
  = if use_gnss_ (params c)
    then let y := vector3d_of_point (Pose.position (PoseStamped.pose msg)) in
         (set_ekf_ (observationUpdate y (var_gnss_ c) (ekf_ c))
            (set_current_stamp_ (Header.stamp (PoseStamped.header msg)) c),
          [ekf_observationUpdate y (var_gnss_ c)])
    else (c, []).
Proof.
  intros Hready. unfold gnss_pose_callback. rewrite Hready, andb_false_r. simpl.
  now destruct (use_gnss_ (params c)).
Qed.

(** C9, as the code has it. On a ready node with odometry enabled, for a
    sample that finds a stored previous matrix other than the identity:
    the position given to the correction is the translation of (matrix of
    the anchor pose) * (stored previous matrix)^-1 * (matrix of the sample's
    pose), with the odometry variances; afterwards the anchor is the node's
    current pose and the stored matrix that of the sample. The orientation
    of the sample itself has no part in that position, and the orientation
    of a GNSS pose has no part in its correction: messages that agree on
    header and position are handled alike. (The rotations of the stored
    previous matrix and of the anchor do take part, through the product.) *)
Theorem odometry_correction_is_relative (msg : Odometry.t D) (c : Component) :
  has_value (initial_pose_ c) = true ->
  use_odom_ (params c) = true ->
  Matrix4d_eqb (previous_odom_mat_ c) Matrix4d_Identity = false ->
  let r := odom_callback msg c in
  let y :=
    translation_of
      (Matrix4d_mul
         (Matrix4d_mul (fromMsg (PoseStamped.pose (current_pose_odom_ c)))
                       (Matrix4d_inverse (previous_odom_mat_ c)))
         (fromMsg (Odometry.pose msg))) in
  snd r = [ekf_observationUpdate y (var_odom_ c)]
  /\ ekf_ (fst r) = observationUpdate y (var_odom_ c) (ekf_ c)
  /\ current_pose_odom_ (fst r) = current_pose_ c
  /\ previous_odom_mat_ (fst r) = fromMsg (Odometry.pose msg)
  /\ (forall msg' : Odometry.t D,
        Odometry.header msg' = Odometry.header msg ->
        Pose.position (Odometry.pose msg') = Pose.position (Odometry.pose msg) ->
        snd (odom_callback msg' c) = snd r
        /\ ekf_ (fst (odom_callback msg' c)) = ekf_ (fst r))
  /\ (forall gnss gnss' : PoseStamped.t D,
        PoseStamped.header gnss' = PoseStamped.header gnss ->
        Pose.position (PoseStamped.pose gnss') = Pose.position (PoseStamped.pose gnss) ->
        gnss_pose_callback gnss' c = gnss_pose_callback gnss c).
Proof.
  intros Hready Hodom Hprev r y. subst r.
  rewrite (odom_callback_relative msg c Hready Hodom Hprev). fold y. simpl.
  repeat (split; [reflexivity|]). split.
  - intros msg' Hhdr Hpos.
    rewrite (odom_callback_relative msg' c Hready Hodom Hprev). simpl.
    rewrite (translation_mul_fromMsg _ _ _ Hpos). fold y. now split.
  - intros gnss gnss' Hhdr Hpos.
    rewrite !gnss_pose_callback_ready by assumption.
    now rewrite Hhdr, Hpos.
Qed.

(** C10, as the code has it. On a ready node with odometry enabled: when
    the stored previous matrix compares equal to the identity, the callback
    only re-establishes the baseline (the anchor becomes the current pose,
    the stored matrix that of the sample) and runs no correction, whatever
    the sample. A sample whose pose is the identity transform is stored like
    any other, which leaves the stored matrix equal to the identity: the
    sample that follows it is then handled as a first sample, although a
    genuine previous sample exists. *)
Theorem first_odometry_sentinel (msg : Odometry.t D) (c : Component) :
  has_value (initial_pose_ c) = true ->
  use_odom_ (params c) = true ->
  let baseline (sample : Odometry.t D) (before : Component) :=
    set_previous_odom_mat_ (fromMsg (Odometry.pose sample))
      (set_current_pose_odom_ (current_pose_ before) before) in
  (Matrix4d_eqb (previous_odom_mat_ c) Matrix4d_Identity = true ->
   odom_callback msg c = (baseline msg c, []))
  /\ (Matrix4d_eqb (fromMsg (Odometry.pose msg)) Matrix4d_Identity = true ->
      forall next : Odometry.t D,
        let c1 := fst (odom_callback msg c) in
        odom_callback next c1 = (baseline next c1, [])).
Proof.
  intros Hready Hodom baseline. split.
  - intros Hprev. unfold odom_callback. now rewrite Hready, Hodom, Hprev.
  - intros Hid next c1.
    assert (Hc1 : has_value (initial_pose_ c1) = true
                  /\ use_odom_ (params c1) = true
                  /\ previous_odom_mat_ c1 = fromMsg (Odometry.pose msg)).
    { subst c1. unfold odom_callback. rewrite Hready, Hodom. simpl.
      now destruct (Matrix4d_eqb (previous_odom_mat_ c) Matrix4d_Identity). }
    destruct Hc1 as (Hready1 & Hodom1 & Hprev1).
    unfold odom_callback at 1. now rewrite Hready1, Hodom1, Hprev1, Hid.
Qed.

End Odometry.

Lemma odometry_correction_is_relative_witness :
  let c := fst (spin [InitialPose (Fixture.pose_at 0 0 0 0 Quaternion_default);
                      OdomSample (Fixture.odom_at 1 1 0 0 Quaternion_default)]
                  (Fixture.node (Fixture.with_flags true false))) in
  let r := odom_callback (Fixture.odom_at 2 3 0 0 Fixture.half_turn) c in
  snd r = [ekf_observationUpdate (Vector3d.mk 2 0 0)%float (var_odom_ c)]
  /\ previous_odom_mat_ (fst r)
     = fromMsg (Pose.mk (Point.mk 3 0 0)%float Fixture.half_turn)
  /\ snd (odom_callback (Fixture.odom_at 2 3 0 0 Quaternion_default) c) = snd r.
Proof.
  intros c r.
  pose proof (odometry_correction_is_relative
                (Fixture.odom_at 2 3 0 0 Fixture.half_turn) c
                eq_refl eq_refl eq_refl) as (Hout & _ & _ & Hprev & Hsame & _).
  split; [|split].
  - etransitivity; [exact Hout|]. vm_compute. reflexivity.
  - exact Hprev.
  - exact (proj1 (Hsame (Fixture.odom_at 2 3 0 0 Quaternion_default) eq_refl eq_refl)).
Defined.

(** C9, as the specification words it, fails: two runs that differ only in
    the orientation carried by the first odometry message give the
    correction that the second message triggers two different measured
    positions, (1,0,0) and (-1,0,0). *)
Lemma odometry_orientation_enters_next_correction :
  let c := fst (spin [InitialPose (Fixture.pose_at 0 0 0 0 Quaternion_default)]
                  (Fixture.node (Fixture.with_flags true false))) in
  let second := OdomSample (Fixture.odom_at 2 2 0 0 Quaternion_default) in
  let var := (Vector3d.mk (2 / 10) (2 / 10) (2 / 10))%float in
  snd (spin [OdomSample (Fixture.odom_at 1 1 0 0 Quaternion_default); second] c)
  = [ekf_observationUpdate (Vector3d.mk 1 0 0)%float var]
  /\ snd (spin [OdomSample (Fixture.odom_at 1 1 0 0 Fixture.half_turn); second] c)
     = [ekf_observationUpdate (Vector3d.mk (-1) 0 0)%float var]
  /\ PrimFloat.eqb 1%float (-1)%float = false.
Proof.
  vm_compute. repeat split.
Qed.

Lemma first_odometry_sentinel_witness :
  let c := fst (spin [InitialPose (Fixture.pose_at 0 0 0 0 Quaternion_default);
                      OdomSample (Fixture.odom_at 1 1 0 0 Quaternion_default)]
                  (Fixture.node (Fixture.with_flags true false))) in
  let identity_pose := Fixture.odom_at 2 0 0 0 Quaternion_default in
  let c1 := fst (odom_callback identity_pose c) in
  Matrix4d_eqb (previous_odom_mat_ c) Matrix4d_Identity = false
  /\ snd (odom_callback (Fixture.odom_at 3 5 0 0 Quaternion_default) c1) = []
  /\ ekf_ (fst (odom_callback (Fixture.odom_at 3 5 0 0 Quaternion_default) c1)) = ekf_ c1.
Proof.
  intros c identity_pose c1.
  pose proof (proj2 (first_odometry_sentinel identity_pose c eq_refl eq_refl)
                eq_refl (Fixture.odom_at 3 5 0 0 Quaternion_default)) as Hnext.
  vm_compute in Hnext. vm_compute.
  split; [reflexivity|].
  split; [exact (f_equal snd Hnext)|reflexivity].
Defined.

(** C10, as the specification words it, fails: an odometry message whose
    pose is exactly the identity transform, received while the stored
    previous matrix is not the identity, is not taken as a first sample; the
    callback runs a correction with it. *)
Lemma identity_odometry_pose_is_corrected_with :
  let c := fst (spin [InitialPose (Fixture.pose_at 0 0 0 0 Quaternion_default);
                      OdomSample (Fixture.odom_at 1 1 0 0 Quaternion_default)]
                  (Fixture.node (Fixture.with_flags true false))) in
  let identity_pose := Fixture.odom_at 2 0 0 0 Quaternion_default in
  Matrix4d_eqb (fromMsg (Odometry.pose identity_pose)) Matrix4d_Identity = true
  /\ Matrix4d_eqb (previous_odom_mat_ c) Matrix4d_Identity = false
  /\ snd (odom_callback identity_pose c)
     = [ekf_observationUpdate (Vector3d.mk (-1) 0 0)%float (var_odom_ c)]
  /\ ekf_ (fst (odom_callback identity_pose c)) <> ekf_ c.
Proof.
  vm_compute. repeat split. discriminate.
Qed.


(** * Further properties of the node *)

Section Runs.
Context {D E : Type} `{Scalar D} `{EKFEstimator D E}.

Local Abbreviation Component := (EkfLocalizationComponent D E).

Lemma spin_app (a b : list (Input D)) (c : Component) :
  spin (a ++ b) c
  = (fst (spin b (fst (spin a c))),
     (snd (spin a c) ++ snd (spin b (fst (spin a c))))%list).
Proof.
  revert c. induction a as [|i a IH]; intros c.
  - simpl. now destruct (spin b c).
  - rewrite <- app_comm_cons, !spin_cons, IH. cbn [fst snd].
    now rewrite app_assoc.
Qed.

Lemma deliver_keeps_ready (i : Input D) (c : Component) :
  has_value (initial_pose_ c) = true ->
  has_value (initial_pose_ (fst (deliver i c))) = true.
Proof.
  intros Hready.
  destruct i as [msg|msg|msg|msg| |tf]; simpl.
  - now destruct (has_value (sub_initial_pose_ (subscriptions c))).
  - rewrite imu_callback_lookup, Hready. now destruct (tfbuffer_ c _ _ _).
  - unfold odom_callback. rewrite Hready. simpl.
    destruct (use_odom_ (params c)); [|assumption].
    now destruct (Matrix4d_eqb (previous_odom_mat_ c) Matrix4d_Identity).
  - rewrite gnss_pose_callback_ready by assumption.
    now destruct (use_gnss_ (params c)).
  - unfold broadcastPose. now rewrite Hready.
  - assumption.
Qed.

(** X1: readiness is never lost. Once an initial pose is stored, the node
    stays ready through every sequence of inputs: no callback clears
    [initial_pose_]. *)
Theorem ready_forever (inputs : list (Input D)) (c : Component) :
  has_value (initial_pose_ c) = true ->
  has_value (initial_pose_ (fst (spin inputs c))) = true.
Proof.
  revert c. induction inputs as [|i rest IH]; intros c Hready; [assumption|].
  rewrite spin_cons. cbn [fst]. apply IH. now apply deliver_keeps_ready.
Qed.

Lemma deliver_publication (i : Input D) (c : Component) :
  is_timer i = false ->
  Forall (fun e => is_publication e = false) (snd (deliver i c)).
Proof.
  intros Hi.
  destruct i as [msg|msg|msg|msg| |tf]; try discriminate; simpl.
  - destruct (has_value (sub_initial_pose_ (subscriptions c))); repeat constructor.
  - rewrite imu_callback_lookup. destruct (has_value (initial_pose_ c)); [|constructor].
    destruct (tfbuffer_ c _ _ _); repeat constructor.
  - unfold odom_callback.
    destruct (has_value (initial_pose_ c) && use_odom_ (params c)); [|constructor].
    destruct (Matrix4d_eqb (previous_odom_mat_ c) Matrix4d_Identity); repeat constructor.
  - unfold gnss_pose_callback.
    destruct (use_gnss_as_initial_pose_ (params c) && negb (has_value (initial_pose_ c)));
      [repeat constructor|].
    destruct (has_value (initial_pose_ c) && use_gnss_ (params c)); repeat constructor.
  - constructor.
Qed.

(** X2: only the timer publishes. A run without a timer tick sends no pose
    and no transform, however many samples and initial poses it handles. *)
Theorem only_the_timer_publishes (inputs : list (Input D)) (c : Component) :
  forallb (fun i => negb (is_timer i)) inputs = true ->
  Forall (fun e => is_publication e = false) (snd (spin inputs c)).
Proof.
  revert c. induction inputs as [|i rest IH]; intros c Hall; [constructor|].
  simpl in Hall. apply andb_true_iff in Hall as [Hi Hrest].
  rewrite spin_cons. cbn [snd]. apply Forall_app. split.
  - apply deliver_publication. now apply negb_true_iff.
  - now apply IH.
Qed.

Lemma replay_app (a b : list (Effect D)) (ekf : E) :
  replay (a ++ b) ekf = replay b (replay a ekf).
Proof. apply fold_left_app. Qed.

Lemma deliver_replay (i : Input D) (c : Component) :
  ekf_ (fst (deliver i c)) = replay (snd (deliver i c)) (ekf_ c).
Proof.
  destruct i as [msg|msg|msg|msg| |tf]; simpl.
  - now destruct (has_value (sub_initial_pose_ (subscriptions c))).
  - rewrite imu_callback_lookup. destruct (has_value (initial_pose_ c)); [|reflexivity].
    now destruct (tfbuffer_ c _ _ _).
  - unfold odom_callback.
    destruct (has_value (initial_pose_ c) && use_odom_ (params c)); [|reflexivity].
    now destruct (Matrix4d_eqb (previous_odom_mat_ c) Matrix4d_Identity).
  - unfold gnss_pose_callback.
    destruct (use_gnss_as_initial_pose_ (params c) && negb (has_value (initial_pose_ c)));
      [reflexivity|].
    now destruct (has_value (initial_pose_ c) && use_gnss_ (params c)).
  - unfold broadcastPose. destruct (has_value (initial_pose_ c)); [|reflexivity].
    simpl. now destruct (broadcast_tf_topic_ (params c)).
  - reflexivity.
Qed.

(** X3: the node changes the estimator through [setInitialX],
    [predictionUpdate] and [observationUpdate] only, one call after the
    other: after any run the estimator is the one the run started with,
    taken through exactly the calls the run made, in their order. *)
Theorem estimator_follows_calls (inputs : list (Input D)) (c : Component) :
  ekf_ (fst (spin inputs c)) = replay (snd (spin inputs c)) (ekf_ c).
Proof.
  revert c. induction inputs as [|i rest IH]; intros c; [reflexivity|].
  rewrite spin_cons. cbn [fst snd]. now rewrite replay_app, IH, deliver_replay.
Qed.

Lemma deliver_odometry_disabled (i : Input D) (c : Component) :
  use_odom_ (params c) = false ->
  previous_odom_mat_ (fst (deliver i c)) = previous_odom_mat_ c
  /\ current_pose_odom_ (fst (deliver i c)) = current_pose_odom_ c
  /\ Forall (fun e => match e with
                      | ekf_observationUpdate _ v => v = var_gnss_ c
                      | _ => True
                      end) (snd (deliver i c)).
Proof.
  intros Hodom.
  destruct i as [msg|msg|msg|msg| |tf]; simpl.
  - destruct (has_value (sub_initial_pose_ (subscriptions c))); repeat constructor.
  - rewrite imu_callback_lookup. destruct (has_value (initial_pose_ c));
      [|repeat constructor].
    destruct (tfbuffer_ c _ _ _); repeat constructor.
  - unfold odom_callback. rewrite Hodom, andb_false_r. repeat constructor.
  - unfold gnss_pose_callback.
    destruct (use_gnss_as_initial_pose_ (params c) && negb (has_value (initial_pose_ c)));
      [repeat constructor|].
    destruct (has_value (initial_pose_ c) && use_gnss_ (params c)); repeat constructor.
  - unfold broadcastPose. destruct (has_value (initial_pose_ c)); [|repeat constructor].
    simpl. destruct (broadcast_tf_topic_ (params c)); repeat constructor.
  - repeat constructor.
Qed.

(** X4: with odometry disabled (the declared default), odometry has no
    part in a run: the stored previous matrix and the anchor pose are never
    written, every odometry sample leaves the node as it is, and every
    correction of the run carries the GNSS variances. *)
Theorem odometry_disabled (inputs : list (Input D)) (c : Component) :
  use_odom_ (params c) = false ->
  let c' := fst (spin inputs c) in
  previous_odom_mat_ c' = previous_odom_mat_ c
  /\ current_pose_odom_ c' = current_pose_odom_ c
  /\ (forall msg, deliver (OdomSample msg) c' = (c', []))
  /\ forall y v, In (ekf_observationUpdate y v) (snd (spin inputs c)) ->
                 v = var_gnss_ c.
Proof.
  intros Hodom c'.
  assert (Hrun : previous_odom_mat_ c' = previous_odom_mat_ c
                 /\ current_pose_odom_ c' = current_pose_odom_ c
                 /\ Forall (fun e => match e with
                                     | ekf_observationUpdate _ v => v = var_gnss_ c
                                     | _ => True
                                     end) (snd (spin inputs c))).
  { subst c'. revert c Hodom.
    induction inputs as [|i rest IH]; intros c Hodom; [repeat constructor|].
    rewrite spin_cons. cbn [fst snd].
    destruct (deliver_odometry_disabled i c Hodom) as (Hp & Ha & Hout).
    destruct (deliver_keeps_configuration i c) as (Hpar & _ & Hg & _).
    destruct (IH (fst (deliver i c))) as (Hp' & Ha' & Hout').
    { now rewrite Hpar. }
    rewrite Hp', Ha', Hp, Ha. repeat split.
    apply Forall_app. split; [assumption|]. now rewrite Hg in Hout'. }
  destruct Hrun as (Hp & Ha & Hout). repeat split; try assumption.
  - intros msg. simpl. unfold odom_callback.
    destruct (spin_keeps_configuration inputs c) as (Hpar & _).
    fold c' in Hpar. now rewrite Hpar, Hodom, andb_false_r.
  - intros y v Hin. rewrite Forall_forall in Hout.
    exact (Hout _ (proj2 (list_elem_of_In _ _) Hin)).
Qed.

End Runs.

Section Seeding.
Context {D E : Type} `{Scalar D} `{EKFEstimator D E}.

Local Abbreviation Component := (EkfLocalizationComponent D E).

Lemma deliver_seeding_ready (i : Input D) (c : Component) :
  has_value (initial_pose_ c) = true ->
  is_initial_pose i = false ->
  Forall (fun e => is_seeding e = false) (snd (deliver i c)).
Proof.
  intros Hready Hi.
  destruct i as [msg|msg|msg|msg| |tf]; try discriminate; simpl.
  - rewrite imu_callback_lookup, Hready. destruct (tfbuffer_ c _ _ _); repeat constructor.
  - unfold odom_callback. destruct (_ && _); [|constructor].
    destruct (Matrix4d_eqb _ _); repeat constructor.
  - rewrite gnss_pose_callback_ready by assumption.
    destruct (use_gnss_ (params c)); repeat constructor.
  - unfold broadcastPose. rewrite Hready. simpl.
    destruct (broadcast_tf_topic_ (params c)); repeat constructor.
  - constructor.
Qed.

Lemma spin_seeding_ready (inputs : list (Input D)) (c : Component) :
  has_value (initial_pose_ c) = true ->
  forallb (fun i => negb (is_initial_pose i)) inputs = true ->
  Forall (fun e => is_seeding e = false) (snd (spin inputs c)).
Proof.
  revert c. induction inputs as [|i rest IH]; intros c Hready Hall; [constructor|].
  simpl in Hall. apply andb_true_iff in Hall as [Hi Hrest].
  apply negb_true_iff in Hi.
  rewrite spin_cons. cbn [snd]. apply Forall_app. split.
  - now apply deliver_seeding_ready.
  - apply IH; [now apply deliver_keeps_ready|assumption].
Qed.

Lemma deliver_seeding_unready (i : Input D) (c : Component) :
  is_initial_pose i = false ->
  has_value (initial_pose_ (fst (deliver i c))) = false ->
  Forall (fun e => is_seeding e = false) (snd (deliver i c)).
Proof.
  intros Hi Hafter.
  destruct i as [msg|msg|msg|msg| |tf]; try discriminate; simpl in *.
  - rewrite imu_callback_lookup in *. destruct (has_value (initial_pose_ c)); [|constructor].
    destruct (tfbuffer_ c _ _ _); repeat constructor.
  - unfold odom_callback. destruct (_ && _); [|constructor].
    destruct (Matrix4d_eqb _ _); repeat constructor.
  - unfold gnss_pose_callback in *.
    destruct (use_gnss_as_initial_pose_ (params c) && negb (has_value (initial_pose_ c)));
      [discriminate|].
    destruct (has_value (initial_pose_ c) && use_gnss_ (params c)); repeat constructor.
  - unfold broadcastPose. destruct (has_value (initial_pose_ c)); [|repeat constructor].
    simpl. destruct (broadcast_tf_topic_ (params c)); repeat constructor.
  - constructor.
Qed.

Lemma deliver_seeding_once (i : Input D) (c : Component) :
  length (List.filter is_seeding (snd (deliver i c))) <= 1.
Proof.
  destruct i as [msg|msg|msg|msg| |tf]; simpl.
  - destruct (has_value (sub_initial_pose_ (subscriptions c))); simpl; lia.
  - rewrite imu_callback_lookup. destruct (has_value (initial_pose_ c)); [|simpl; lia].
    destruct (tfbuffer_ c _ _ _); simpl; lia.
  - unfold odom_callback. destruct (_ && _); [|simpl; lia].
    destruct (Matrix4d_eqb _ _); simpl; lia.
  - unfold gnss_pose_callback. destruct (_ && _); [simpl; lia|].
    destruct (_ && _); simpl; lia.
  - unfold broadcastPose. destruct (has_value (initial_pose_ c)); [|simpl; lia].
    simpl. destruct (broadcast_tf_topic_ (params c)); simpl; lia.
  - simpl. lia.
Qed.

Lemma no_seeding_length (out : list (Effect D)) :
  Forall (fun e => is_seeding e = false) out ->
  length (List.filter is_seeding out) = 0.
Proof.
  induction 1 as [|e out He _ IH]; [reflexivity|]. simpl. now rewrite He.
Qed.

(** X5: without the dedicated initial-pose channel the estimator is seeded
    at most once. In a run that holds no message of that channel, whatever
    the configuration and the state it starts in, [setInitialX] is called at
    most one time (by the first GNSS pose, when GNSS is the configured
    source), and not at all when the node starts ready. *)
Theorem gnss_seeds_at_most_once (inputs : list (Input D)) (c : Component) :
  forallb (fun i => negb (is_initial_pose i)) inputs = true ->
  length (List.filter is_seeding (snd (spin inputs c))) <= 1
  /\ (has_value (initial_pose_ c) = true ->
      length (List.filter is_seeding (snd (spin inputs c))) = 0).
Proof.
  intros Hall. split.
  - revert c. induction inputs as [|i rest IH]; intros c; [simpl; lia|].
    simpl in Hall. apply andb_true_iff in Hall as [Hi Hrest].
    apply negb_true_iff in Hi.
    rewrite spin_cons. cbn [snd]. rewrite List.filter_app, length_app.
    destruct (has_value (initial_pose_ (fst (deliver i c)))) eqn:Hafter.
    + rewrite (no_seeding_length (snd (spin rest _)))
        by now apply spin_seeding_ready.
      pose proof (deliver_seeding_once i c). lia.
    + rewrite (no_seeding_length (snd (deliver i c)))
        by now apply deliver_seeding_unready.
      specialize (IH Hrest (fst (deliver i c))). lia.
  - intros Hready. apply no_seeding_length. now apply spin_seeding_ready.
Qed.

Lemma deliver_current_pose (i : Input D) (c : Component) :
  has_value (initial_pose_ c) = true ->
  is_initial_pose i = false -> is_timer i = false ->
  current_pose_ (fst (deliver i c)) = current_pose_ c.
Proof.
  intros Hready Hi Ht.
  destruct i as [msg|msg|msg|msg| |tf]; try discriminate; simpl.
  - rewrite imu_callback_lookup, Hready. now destruct (tfbuffer_ c _ _ _).
  - unfold odom_callback. destruct (_ && _); [|reflexivity].
    now destruct (Matrix4d_eqb _ _).
  - rewrite gnss_pose_callback_ready by assumption.
    now destruct (use_gnss_ (params c)).
  - reflexivity.
Qed.

(** X6: the node's current pose is a snapshot, refreshed by the timer only.
    On a ready node, a run of sensor samples (no initial pose, no timer tick)
    leaves [current_pose_] as it was, however far the estimator has moved;
    so the anchor an odometry sample stores after such a run is still the
    pose of the last tick. *)
Theorem current_pose_is_a_snapshot (inputs : list (Input D)) (c : Component) :
  has_value (initial_pose_ c) = true ->
  forallb (fun i => negb (is_initial_pose i) && negb (is_timer i)) inputs = true ->
  let c' := fst (spin inputs c) in
  current_pose_ c' = current_pose_ c
  /\ forall msg,
       use_odom_ (params c) = true ->
       current_pose_odom_ (fst (odom_callback msg c')) = current_pose_ c.
Proof.
  intros Hready Hall c'.
  assert (Hpose : current_pose_ c' = current_pose_ c).
  { subst c'. revert c Hready.
    induction inputs as [|i rest IH]; intros c Hready; [reflexivity|].
    simpl in Hall. apply andb_true_iff in Hall as [Hi Hrest].
    apply andb_true_iff in Hi as [Hi Ht].
    apply negb_true_iff in Hi, Ht.
    rewrite spin_cons. cbn [fst].
    rewrite (IH Hrest) by now apply deliver_keeps_ready.
    now apply deliver_current_pose. }
  split; [assumption|]. intros msg Hodom.
  pose proof (ready_forever inputs c Hready) as Hready'. fold c' in Hready'.
  destruct (spin_keeps_configuration inputs c) as (Hpar & _). fold c' in Hpar.
  unfold odom_callback. rewrite Hready', Hpar, Hodom. simpl.
  now destruct (Matrix4d_eqb (previous_odom_mat_ c') Matrix4d_Identity).
Qed.

(** X7: a new initial pose does not re-anchor the odometry. On a ready
    node, [initialPoseCallback] leaves the stored previous matrix and the
    anchor pose as they are, so the odometry sample that follows it gives the
    estimator the very measurement it would have given without it. *)
Theorem initial_pose_keeps_odometry_anchor
    (msg : PoseStamped.t D) (sample : Odometry.t D) (c : Component) :
  has_value (initial_pose_ c) = true ->
  let c' := fst (initialPoseCallback msg c) in
  previous_odom_mat_ c' = previous_odom_mat_ c
  /\ current_pose_odom_ c' = current_pose_odom_ c
  /\ snd (odom_callback sample c') = snd (odom_callback sample c).
Proof.
  intros Hready c'. split; [reflexivity|]. split; [reflexivity|].
  subst c'. unfold odom_callback. rewrite Hready. simpl.
  destruct (use_odom_ (params c)); [|reflexivity].
  now destruct (Matrix4d_eqb (previous_odom_mat_ c) Matrix4d_Identity).
Qed.

(** X8: the timer callback is idempotent. A second tick right after a first
    publishes the same messages and leaves the node as the first left it. *)
Theorem broadcast_is_idempotent (c : Component) :
  broadcastPose (fst (broadcastPose c)) = broadcastPose c.
Proof.
  unfold broadcastPose.
  destruct (has_value (initial_pose_ c)) eqn:Hready; simpl; rewrite Hready; reflexivity.
Qed.

(** X9: the inertial callback reads the stamp, the frame, the angular
    velocity and the linear acceleration of a message and nothing else: the
    orientation an IMU reports is ignored. *)
Theorem imu_orientation_is_ignored (msg msg' : Imu.t D) (c : Component) :
  Imu.header msg' = Imu.header msg ->
  Imu.angular_velocity msg' = Imu.angular_velocity msg ->
  Imu.linear_acceleration msg' = Imu.linear_acceleration msg ->
  imu_callback msg' c = imu_callback msg c.
Proof.
  intros Hh Hw Ha. rewrite !imu_callback_lookup. now rewrite Hh, Hw, Ha.
Qed.

(** X10: the frame a pose is expressed in is never looked at. Two odometry
    messages with the same stamp and pose, and on a ready node two GNSS
    poses with the same stamp and position, are handled alike, whatever
    their [frame_id] and [child_frame_id]. *)
Theorem pose_frames_are_ignored (c : Component) :
  has_value (initial_pose_ c) = true ->
  (forall sample sample' : Odometry.t D,
      Header.stamp (Odometry.header sample') = Header.stamp (Odometry.header sample) ->
      Odometry.pose sample' = Odometry.pose sample ->
      odom_callback sample' c = odom_callback sample c)
  /\ (forall gnss gnss' : PoseStamped.t D,
        Header.stamp (PoseStamped.header gnss') = Header.stamp (PoseStamped.header gnss) ->
        Pose.position (PoseStamped.pose gnss') = Pose.position (PoseStamped.pose gnss) ->
        gnss_pose_callback gnss' c = gnss_pose_callback gnss c).
Proof.
  intros Hready. split.
  - intros sample sample' Hs Hp. unfold odom_callback. rewrite Hp.
    destruct (_ && _); [|reflexivity].
    destruct (Matrix4d_eqb _ _); [reflexivity|].
    unfold measurementUpdate. cbn [PoseStamped.header PoseStamped.pose].
    now rewrite Hs.
  - intros gnss gnss' Hs Hp. rewrite !gnss_pose_callback_ready by assumption.
    now rewrite Hs, Hp.
Qed.

End Seeding.

(** X11: [time_point_of] keeps the order of stamps whose nanoseconds are
    below one second, and sends two of them to the same point only when they
    are equal. *)
Theorem time_point_of_normalized (s s' : Time.t) :
  normalized_stamp s -> normalized_stamp s' ->
  ((time_point_of s < time_point_of s')%Z
   <-> (Time.sec s < Time.sec s')%Z
       \/ (Time.sec s = Time.sec s' /\ (Time.nanosec s < Time.nanosec s')%Z))
  /\ (time_point_of s = time_point_of s' -> s = s').
Proof.
  destruct s as [a n], s' as [a' n']. unfold normalized_stamp, time_point_of. simpl.
  intros Hn Hn'. split; [lia|].
  intros Heq. assert (a = a') by lia. assert (n = n') by lia. now subst.
Qed.

(** ** The further properties on runs *)

Lemma ready_forever_witness :
  let c := fst (initialPoseCallback (Fixture.pose_at 0 1 2 3 Quaternion_default)
                  (Fixture.node (Fixture.with_flags true false))) in
  let inputs := [ImuSample (Fixture.imu_at 1 "lidar_link");
                 OdomSample (Fixture.odom_at 2 1 0 0 Quaternion_default);
                 Timer;
                 ImuSample (Fixture.imu_at 3 "imu_link")] in
  has_value (initial_pose_ (fst (spin inputs c))) = true.
Proof.
  intros c inputs. exact (ready_forever inputs c eq_refl).
Defined.

Lemma only_the_timer_publishes_witness :
  let inputs := [InitialPose (Fixture.pose_at 0 1 2 3 Quaternion_default);
                 ImuSample (Fixture.imu_at 1 "imu_link");
                 OdomSample (Fixture.odom_at 2 1 0 0 Quaternion_default)] in
  Forall (fun e => is_publication e = false)
         (snd (spin inputs (Fixture.node Fixture.defaults))).
Proof.
  intros inputs.
  exact (only_the_timer_publishes inputs (Fixture.node Fixture.defaults) eq_refl).
Defined.

Lemma odometry_disabled_witness :
  let c := Fixture.node Fixture.defaults in
  let c' := fst (spin [InitialPose (Fixture.pose_at 0 1 2 3 Quaternion_default);
                       OdomSample (Fixture.odom_at 1 1 0 0 Fixture.half_turn);
                       ImuSample (Fixture.imu_at 2 "imu_link")] c) in
  previous_odom_mat_ c' = Matrix4d_Identity
  /\ deliver (OdomSample (Fixture.odom_at 3 5 0 0 Quaternion_default)) c' = (c', []).
Proof.
  intros c c'.
  pose proof (odometry_disabled
                [InitialPose (Fixture.pose_at 0 1 2 3 Quaternion_default);
                 OdomSample (Fixture.odom_at 1 1 0 0 Fixture.half_turn);
                 ImuSample (Fixture.imu_at 2 "imu_link")] c eq_refl)
    as (Hprev & _ & Hdrop & _).
  exact (conj Hprev (Hdrop _)).
Defined.

Lemma gnss_seeds_at_most_once_witness :
  let inputs := [GnssPose (Fixture.pose_at 1 1 2 3 Quaternion_default);
                 ImuSample (Fixture.imu_at 2 "imu_link");
                 GnssPose (Fixture.pose_at 3 4 5 6 Quaternion_default)] in
  length
    (List.filter is_seeding
       (snd (spin inputs (Fixture.node (Fixture.with_flags false true))))) <= 1.
Proof.
  intros inputs.
  exact (proj1 (gnss_seeds_at_most_once inputs
                  (Fixture.node (Fixture.with_flags false true)) eq_refl)).
Defined.

Lemma current_pose_is_a_snapshot_witness :
  let c := fst (initialPoseCallback (Fixture.pose_at 0 1 2 3 Quaternion_default)
                  (Fixture.node (Fixture.with_flags true false))) in
  let c' := fst (spin [ImuSample (Fixture.imu_at 1 "imu_link");
                       ImuSample (Fixture.imu_at 2 "imu_link")] c) in
  current_pose_ c' = Fixture.pose_at 0 1 2 3 Quaternion_default
  /\ current_pose_odom_
       (fst (odom_callback (Fixture.odom_at 3 1 0 0 Quaternion_default) c'))
     = Fixture.pose_at 0 1 2 3 Quaternion_default.
Proof.
  intros c c'.
  pose proof (current_pose_is_a_snapshot
                [ImuSample (Fixture.imu_at 1 "imu_link");
                 ImuSample (Fixture.imu_at 2 "imu_link")] c eq_refl eq_refl)
    as (Hpose & Hanchor).
  exact (conj Hpose (Hanchor _ eq_refl)).
Defined.

Lemma initial_pose_keeps_odometry_anchor_witness :
  let c := fst (spin [InitialPose (Fixture.pose_at 0 0 0 0 Quaternion_default);
                      OdomSample (Fixture.odom_at 1 1 0 0 Quaternion_default)]
                  (Fixture.node (Fixture.with_flags true false))) in
  let sample := Fixture.odom_at 3 2 0 0 Quaternion_default in
  snd (odom_callback sample
         (fst (initialPoseCallback (Fixture.pose_at 2 7 7 7 Fixture.half_turn) c)))
  = snd (odom_callback sample c).
Proof.
  intros c sample.
  exact (proj2 (proj2 (initial_pose_keeps_odometry_anchor
                         (Fixture.pose_at 2 7 7 7 Fixture.half_turn) sample c eq_refl))).
Defined.

Lemma imu_orientation_is_ignored_witness :
  let c := fst (initialPoseCallback (Fixture.pose_at 0 1 2 3 Quaternion_default)
                  (Fixture.node Fixture.defaults)) in
  let msg := Fixture.imu_at 1 "imu_link" in
  let msg' := Imu.mk (Imu.header msg) Fixture.half_turn
                (Imu.angular_velocity msg) (Imu.linear_acceleration msg) in
  imu_callback msg' c = imu_callback msg c.
Proof.
  intros c msg msg'.
  exact (imu_orientation_is_ignored msg msg' c eq_refl eq_refl eq_refl).
Defined.

Lemma pose_frames_are_ignored_witness :
  let c := fst (spin [InitialPose (Fixture.pose_at 0 0 0 0 Quaternion_default);
                      OdomSample (Fixture.odom_at 1 1 0 0 Quaternion_default)]
                  (Fixture.node (Fixture.with_flags true false))) in
  let sample := Fixture.odom_at 2 2 0 0 Quaternion_default in
  let sample' := Odometry.mk (Header.mk (Time.mk 2 0) "odom") "wheel"
                   (Odometry.pose sample) in
  odom_callback sample' c = odom_callback sample c.
Proof.
  intros c sample sample'.
  exact (proj1 (pose_frames_are_ignored c eq_refl) sample sample' eq_refl eq_refl).
Defined.

Lemma time_point_of_normalized_witness :
  (time_point_of (Time.mk 1 999999999) < time_point_of (Time.mk 2 0))%Z.
Proof.
  refine (proj2 (proj1 (time_point_of_normalized (Time.mk 1 999999999) (Time.mk 2 0) _ _))
            (or_introl _)); unfold normalized_stamp; simpl; lia.
Defined.

Section Waiting.
Context {D E : Type} `{Scalar D} `{EKFEstimator D E}.

Local Abbreviation Component := (EkfLocalizationComponent D E).

Lemma deliver_waiting (i : Input D) (c : Component) :
  has_value (initial_pose_ c) = false ->
  cannot_seed (params c) i = true ->
  has_value (initial_pose_ (fst (deliver i c))) = false
  /\ ekf_ (fst (deliver i c)) = ekf_ c
  /\ Forall (fun e => e = log WARN "initial pose does not recieved.")
            (snd (deliver i c)).
Proof.
  intros Hinit Hi.
  destruct i as [msg|msg|msg|msg| |tf]; simpl in Hi; try discriminate; simpl.
  - unfold imu_callback. rewrite Hinit. repeat constructor. assumption.
  - unfold odom_callback. rewrite Hinit. repeat constructor. assumption.
  - unfold gnss_pose_callback. apply negb_true_iff in Hi. rewrite Hinit, Hi.
    repeat constructor. assumption.
  - unfold broadcastPose. rewrite Hinit. repeat constructor. assumption.
  - repeat constructor. assumption.
Qed.

(** X12: a node that waits for its initial pose does nothing else. As long
    as no input can seed it (no message of the initial-pose channel, and no
    GNSS pose when GNSS is the configured source), a run of samples, timer
    ticks and buffer refreshes leaves the node not ready and the estimator
    untouched, and its only effects are the warnings of the timer, one per
    tick. *)
Theorem waiting_for_initial_pose (inputs : list (Input D)) (c : Component) :
  has_value (initial_pose_ c) = false ->
  forallb (cannot_seed (params c)) inputs = true ->
  has_value (initial_pose_ (fst (spin inputs c))) = false
  /\ ekf_ (fst (spin inputs c)) = ekf_ c
  /\ snd (spin inputs c)
     = repeat (log WARN "initial pose does not recieved.")
              (length (List.filter is_timer inputs)).
Proof.
  revert c. induction inputs as [|i rest IH]; intros c Hinit Hall;
    [now repeat split|].
  simpl in Hall. apply andb_true_iff in Hall as [Hi Hrest].
  destruct (deliver_waiting i c Hinit Hi) as (Hinit1 & Hekf1 & _).
  destruct (deliver_keeps_configuration i c) as (Hpar & _).
  rewrite <- Hpar in Hrest.
  destruct (IH (fst (deliver i c)) Hinit1 Hrest) as (Hinit' & Hekf' & Hout').
  rewrite spin_cons. cbn [fst snd]. rewrite Hinit', Hekf', Hekf1, Hout'.
  repeat split.
  destruct i as [msg|msg|msg|msg| |tf]; simpl in Hi; try discriminate; simpl.
  - unfold imu_callback. now rewrite Hinit.
  - unfold odom_callback. now rewrite Hinit.
  - unfold gnss_pose_callback. apply negb_true_iff in Hi. now rewrite Hinit, Hi.
  - unfold broadcastPose. now rewrite Hinit.
  - reflexivity.
Qed.

End Waiting.

Lemma waiting_for_initial_pose_witness :
  let c := Fixture.node Fixture.defaults in
  let inputs := [ImuSample (Fixture.imu_at 1 "imu_link"); Timer;
                 GnssPose (Fixture.pose_at 2 1 2 3 Quaternion_default);
                 TfUpdate Fixture.tf; Timer] in
  snd (spin inputs c)
  = [log WARN "initial pose does not recieved.";
     log WARN "initial pose does not recieved."].
Proof.
  intros c inputs.
  exact (proj2 (proj2 (waiting_for_initial_pose inputs c eq_refl eq_refl))).
Defined.

(** * Initialization against the estimator of the specification *)

Section Renormalization.
Local Open Scope R_scope.

Lemma squaredNorm_sqrt (q : Quaternion.t R) :
  0 <= SpecEkf.squaredNorm q ->
  SpecEkf.norm q * SpecEkf.norm q = SpecEkf.squaredNorm q.
Proof. intros Hpos. exact (sqrt_sqrt (SpecEkf.squaredNorm q) Hpos). Qed.

Lemma norm_normalized (q : Quaternion.t R) :
  0 < SpecEkf.squaredNorm q -> SpecEkf.norm (SpecEkf.normalized q) = 1.
Proof.
  intros Hpos.
  unfold SpecEkf.normalized.
  set (n := SpecEkf.norm q).
  assert (Hn : n * n = SpecEkf.squaredNorm q) by (apply squaredNorm_sqrt; lra).
  assert (Hn0 : n <> 0) by (intros Hz; rewrite Hz in Hn; lra).
  change (R_sqrt.sqrt
            (SpecEkf.squaredNorm
               (Quaternion.mk (Quaternion.x q / n) (Quaternion.y q / n)
                              (Quaternion.z q / n) (Quaternion.w q / n))) = 1).
  replace (SpecEkf.squaredNorm _) with (SpecEkf.squaredNorm q / (n * n)).
  - rewrite Hn. unfold Rdiv. rewrite Rinv_r by lra. apply sqrt_1.
  - destruct q as [x y z w]. unfold SpecEkf.squaredNorm. simpl. now field.
Qed.

Lemma normalized_fixed (q : Quaternion.t R) :
  0 < SpecEkf.squaredNorm q ->
  SpecEkf.normalized q = q <-> SpecEkf.norm q = 1.
Proof.
  intros Hpos.
  assert (Hn : SpecEkf.norm q * SpecEkf.norm q = SpecEkf.squaredNorm q)
    by (apply squaredNorm_sqrt; lra).
  unfold SpecEkf.normalized. set (n := SpecEkf.norm q) in *.
  assert (Hn0 : n <> 0) by (intros Hz; rewrite Hz in Hn; lra).
  destruct q as [x y z w]. unfold SpecEkf.squaredNorm in *. simpl in *.
  split.
  - intros Heq. injection Heq as Hx Hy Hz Hw.
    assert (Hx' : x = x * n) by (rewrite <- Hx at 2; field; assumption).
    assert (Hy' : y = y * n) by (rewrite <- Hy at 2; field; assumption).
    assert (Hz' : z = z * n) by (rewrite <- Hz at 2; field; assumption).
    assert (Hw' : w = w * n) by (rewrite <- Hw at 2; field; assumption).
    assert (Ex : x - x * n = 0) by lra.
    assert (Ey : y - y * n = 0) by lra.
    assert (Ez : z - z * n = 0) by lra.
    assert (Ew : w - w * n = 0) by lra.
    assert (Hs : (x * x + y * y + z * z + w * w) * (1 - n) = 0).
    { replace ((x * x + y * y + z * z + w * w) * (1 - n))
        with (x * (x - x * n) + y * (y - y * n) + z * (z - z * n) + w * (w - w * n))
        by ring.
      rewrite Ex, Ey, Ez, Ew. ring. }
    apply Rmult_integral in Hs as [Hs|Hs]; lra.
  - intros ->. f_equal; field.
Qed.

End Renormalization.

(** What [SpecEkf.setInitialX] makes of a state vector of full size. *)
Lemma setInitialX_on_pose {D : Type} `{Scalar D} (cfg : SpecEkf.Config D)
    (px py pz qx qy qz qw vx vy vz : D) (e : SpecEkf.t D) :
  SpecEkf.setInitialX cfg [px; py; pz; qx; qy; qz; qw; vx; vy; vz] e
  = if SpecEkf.all_finite [px; py; pz; qx; qy; qz; qw]
    then let q := SpecEkf.normalized (Quaternion.mk qx qy qz qw) in
         SpecEkf.mk
           [px; py; pz; Quaternion.x q; Quaternion.y q; Quaternion.z q;
            Quaternion.w q; vx; vy; vz]
           (SpecEkf.initial_covariance cfg)
           (SpecEkf.var_imu_gyro_ e) (SpecEkf.var_imu_acc_ e) true None
    else e.
Proof.
  unfold SpecEkf.setInitialX.
  change (SpecEkf.position_of [px; py; pz; qx; qy; qz; qw; vx; vy; vz])
    with (Vector3d.mk px py pz).
  change (SpecEkf.orientation_of [px; py; pz; qx; qy; qz; qw; vx; vy; vz])
    with (Quaternion.mk qx qy qz qw).
  cbn -[SpecEkf.normalized SpecEkf.all_finite].
  now destruct (SpecEkf.all_finite [px; py; pz; qx; qy; qz; qw]).
Qed.


